(** * Scoring, ranking and caching core of the area recommender

    A shallow embedding of
      - [execution/score_and_rank.py]  (module [ScoreAndRank]),
      - [tools/score_areas.py]         (module [ScoreAreas]),
      - [tools/cache_manager.py]       (module [CacheManager]),
    followed by the properties established about them.

    Conventions of the embedding.
      - Python numbers (ints and floats) are exact rationals [Q]; every
        arithmetic expression is transcribed operator by operator, and
        numeric results are compared with [==].
      - A Python [dict] is an insertion-ordered association list with
        string keys (module [Dict]); iteration follows list order.
      - A raised exception is the [Raise] branch of [result]. *)

From Stdlib Require Import QArith Qround Qminmax Qabs ZArith Lia Ascii Sorted.
From stdpp Require Import base option list strings gmap.

(** ** Exceptions *)

Inductive exn : Type :=
  | ValueError (msg : string)
  | KeyError (key : string)
  | OverflowError.

Inductive result (A : Type) : Type :=
  | Ok (a : A)
  | Raise (e : exn).
Arguments Ok {A} a.
Arguments Raise {A} e.

(** ** Python dictionaries with string keys *)

Module Dict.
Section Defs.
Context {V : Type}.

(** [d.get(k)] / [d[k]] *)
Fixpoint get (k : string) (d : list (string * V)) : option V :=
  match d with
  | [] => None
  | (k', v) :: d' => if String.eqb k k' then Some v else get k d'
  end.

(** [d.get(k, dflt)] *)
Definition get_or (k : string) (dflt : V) (d : list (string * V)) : V :=
  default dflt (get k d).

(** [k in d] *)
Definition mem (k : string) (d : list (string * V)) : bool :=
  match get k d with Some _ => true | None => false end.

(** [d[k] = v]: overwrite in place, or append a new key at the end. *)
Fixpoint set (k : string) (v : V) (d : list (string * V)) : list (string * V) :=
  match d with
  | [] => [(k, v)]
  | (k', v') :: d' =>
      if String.eqb k k' then (k, v) :: d' else (k', v') :: set k v d'
  end.

Definition keys (d : list (string * V)) : list string := map fst d.
Definition values (d : list (string * V)) : list V := map snd d.

(** [{k: f(v) for k, v in d.items()}] *)
Definition map_values {W : Type} (f : V -> W) (d : list (string * V))
  : list (string * W) :=
  map (fun kv => (fst kv, f (snd kv))) d.
End Defs.
End Dict.

Abbreviation dict V := (list (string * V)).

(** ** Numbers *)

Local Open Scope Q_scope.

(** [sum(xs)]: left to right from 0. *)
Definition Qsum (xs : list Q) : Q := fold_left Qplus xs 0.

Definition Qltb (a b : Q) : bool := negb (Qle_bool b a).

(** Round to the nearest integer, ties to the even neighbour. *)
Definition round_half_even (q : Q) : Z :=
  let f := Qfloor q in
  match Qcompare (q - inject_Z f) (1 # 2) with
  | Lt => f
  | Gt => (f + 1)%Z
  | Eq => if Z.even f then f else (f + 1)%Z
  end.

(** [round(q, 1)]: the nearest multiple of one tenth. *)
Definition round1 (q : Q) : Q := Qred (inject_Z (round_half_even (q * 10)) / 10).

(** [round(q, 0)] *)
Definition round0 (q : Q) : Q := inject_Z (round_half_even q).

(** [l[:n]] for a possibly negative bound. *)
Definition slice_to {A : Type} (n : Z) (l : list A) : list A :=
  if (0 <=? n)%Z then take (Z.to_nat n) l
  else take (length l - Z.to_nat (- n))%nat l.

(** ** Stable descending sort: [l.sort(key=..., reverse=True)]

    [list.sort] is stable, also under [reverse=True]: elements with equal
    keys keep their order.  The outcome of a stable sort is fixed by the
    keys and the input order, so the insertion sort below returns the list
    that [list.sort] returns. *)

Section Sort.
Context {A : Type} (key : A -> Q).

(** [x] is placed in front of the first element whose key does not exceed
    its own, so that among equal keys the earlier element stays first. *)
Fixpoint insert_desc (x : A) (l : list A) : list A :=
  match l with
  | [] => [x]
  | y :: l' =>
      if Qltb (key x) (key y) then y :: insert_desc x l' else x :: y :: l'
  end.

Fixpoint sort_desc (l : list A) : list A :=
  match l with
  | [] => []
  | x :: l' => insert_desc x (sort_desc l')
  end.

(** The order the sort establishes between an element and a later one. *)
Definition desc (a b : A) : Prop := key b <= key a.
End Sort.

(** ** execution/score_and_rank.py *)

Module ScoreAndRank.

(** A sub-record maps field names to numbers (the string-valued fields of
    the collaborators' records are never read by the engine); an area
    record maps category names to sub-records. *)
Abbreviation subrecord := (dict Q).
Abbreviation area := (dict subrecord).

(** [float('inf')] appears as a default for missing fields. *)
Inductive xnum : Type :=
  | Fin (q : Q)
  | PosInf.

(** [x > b] for a finite [b]. *)
Definition xgtb (x : xnum) (b : Q) : bool :=
  match x with
  | Fin q => Qltb b q
  | PosInf => true
  end.

(** The keys of [user_preferences] read by the engine; an absent key is
    [None]. *)
Record preferences : Type := {
  budget_max : option Q;
  max_commute_minutes : option Q;
  min_safety_score : option Q;
  min_school_rating : option Q;
  importance_weights : option (dict Q)
}.

(** Persona-specific base weights (sum to 100). *)
Definition PERSONA_WEIGHTS : dict (dict Q) :=
  [ ("student",
      [ ("affordability", 35); ("commute", 25); ("safety", 15);
        ("amenities", 20); ("investment_quality", 5) ]);
    ("parent",
      [ ("affordability", 20); ("schools", 30); ("safety", 25);
        ("commute", 15); ("amenities", 10) ]);
    ("developer",
      [ ("investment_quality", 40); ("demand_index", 25);
        ("risk_score", 20); ("infrastructure", 15) ]) ].

(** The scaling loop of [calculate_adjusted_weights]:
    [adjusted[factor] = base_weight * (importance / 5.0)] with
    [importance = user_importance.get(factor, 5)]. *)
Definition scale_by_importance (base_weights user_importance : dict Q) : dict Q :=
  fold_left
    (fun adjusted fw =>
       let importance := Dict.get_or (fst fw) 5 user_importance in
       Dict.set (fst fw) (snd fw * (importance / 5)) adjusted)
    base_weights [].

(** [{k: (v / total) * 100 for k, v in adjusted.items()}] *)
Definition normalize_to_100 (total : Q) (adjusted : dict Q) : dict Q :=
  Dict.map_values (fun v => (v / total) * 100) adjusted.

Definition calculate_adjusted_weights (persona : string) (user_importance : dict Q)
  : result (dict Q) :=
  match Dict.get persona PERSONA_WEIGHTS with
  | None => Raise (KeyError persona)
  | Some base_weights =>
      match user_importance with
      | [] => Ok base_weights
      | _ :: _ =>
          let adjusted := scale_by_importance base_weights user_importance in
          let total := Qsum (Dict.values adjusted) in
          if Qltb 0 total then Ok (normalize_to_100 total adjusted)
          else Ok adjusted
      end
  end.

(** [scores[name] = sub.get(field, 50)] when the category is present. *)
Definition put_field (category field name : string) (area_data : area)
    (scores : dict Q) : dict Q :=
  match Dict.get category area_data with
  | Some sub => Dict.set name (Dict.get_or field 50 sub) scores
  | None => scores
  end.

Definition calculate_factor_scores (area_data : area) (persona : string) : dict Q :=
  let scores : dict Q := [] in
  (* ScanSan scores (already 0-100) *)
  let scores :=
    match Dict.get "scansan" area_data with
    | Some ss =>
        let scores := Dict.set "affordability" (Dict.get_or "affordability_score" 50 ss) scores in
        let scores := Dict.set "investment_quality" (Dict.get_or "investment_quality" 50 ss) scores in
        let scores := Dict.set "demand_index" (Dict.get_or "demand_index" 50 ss) scores in
        Dict.set "risk_score" (Dict.get_or "risk_score" 50 ss) scores
    | None => scores
    end in
  (* Commute score (inverse of duration): 0 min = 100, 60 min = 0, linear *)
  let scores :=
    match Dict.get "commute" area_data with
    | Some c =>
        let duration := Dict.get_or "duration_minutes" 60 c in
        Dict.set "commute" (Qmax 0 (Qmin 100 (100 - (duration / 60 * 100)))) scores
    | None => scores
    end in
  let scores := put_field "crime" "safety_score" "safety" area_data scores in
  let scores := put_field "schools" "avg_primary_score" "schools" area_data scores in
  let scores := put_field "amenities" "density_score" "amenities" area_data scores in
  let scores := put_field "infrastructure" "score" "infrastructure" area_data scores in
  scores.

(** One iteration of the loop of [calculate_composite_score]. *)
Definition composite_step (scores : dict Q) (acc : Q * dict Q) (fw : string * Q)
  : Q * dict Q :=
  let '(composite, contributions) := acc in
  let '(factor, weight) := fw in
  match Dict.get factor scores with
  | Some s =>
      let contribution := (s * weight) / 100 in
      (composite + contribution, Dict.set factor contribution contributions)
  | None => (composite, Dict.set factor 0 contributions)
  end.

Definition calculate_composite_score (scores weights : dict Q) : Q * dict Q :=
  fold_left (composite_step scores) weights (0, []).

Definition passes_constraints (area_data : area) (p : preferences) : bool :=
  (* Budget constraint *)
  if match budget_max p, Dict.get "scansan" area_data with
     | Some bmax, Some ss =>
         let price := match Dict.get "avg_price" ss with
                      | Some v => Fin v | None => PosInf end in
         xgtb price bmax
     | _, _ => false
     end
  then false
  (* Max commute constraint *)
  else if match max_commute_minutes p, Dict.get "commute" area_data with
     | Some cmax, Some c =>
         let duration := match Dict.get "duration_minutes" c with
                         | Some v => Fin v | None => PosInf end in
         xgtb duration cmax
     | _, _ => false
     end
  then false
  (* Min safety constraint *)
  else if match min_safety_score p, Dict.get "crime" area_data with
     | Some smin, Some cr => Qltb (Dict.get_or "safety_score" 0 cr) smin
     | _, _ => false
     end
  then false
  (* Min school rating constraint *)
  else if match min_school_rating p, Dict.get "schools" area_data with
     | Some rmin, Some sc => Qltb (Dict.get_or "avg_primary_score" 0 sc) rmin
     | _, _ => false
     end
  then false
  else true.

(** The three reason strings, with the numbers they interpolate. *)
Inductive filter_reason : Type :=
  | OverBudget (price budget : Q)
  | CommuteTooLong (duration limit : Q)
  | DidNotMeetConstraints.

Definition get_filter_reason (area_data : area) (p : preferences) : filter_reason :=
  match
    match budget_max p, Dict.get "scansan" area_data with
    | Some bmax, Some ss =>
        let price := Dict.get_or "avg_price" 0 ss in
        if Qltb bmax price then Some (OverBudget price bmax) else None
    | _, _ => None
    end
  with
  | Some r => r
  | None =>
      match
        match max_commute_minutes p, Dict.get "commute" area_data with
        | Some cmax, Some c =>
            let duration := Dict.get_or "duration_minutes" 0 c in
            if Qltb cmax duration then Some (CommuteTooLong duration cmax) else None
        | _, _ => None
        end
      with
      | Some r => r
      | None => DidNotMeetConstraints
      end
  end.

(** A scored candidate.  [rank] is filled in after sorting.  The text
    annotations ([strengths], [weaknesses], [trade_offs]) are computed from
    the fields below and influence neither order nor counts; they are left
    out of the record. *)
Record candidate : Type := {
  area_code : string;
  composite_score : Q;
  factor_scores : dict Q;
  factor_contributions : dict Q;
  raw_data : area;
  rank : option nat
}.

Record filtered : Type := {
  f_area_code : string;
  f_reason : filter_reason
}.

Definition set_rank (r : nat) (c : candidate) : candidate :=
  {| area_code := area_code c; composite_score := composite_score c;
     factor_scores := factor_scores c;
     factor_contributions := factor_contributions c;
     raw_data := raw_data c; rank := Some r |}.

(** The candidate appended by the scoring loop for an area that passes. *)
Definition score_area (persona : string) (adjusted_weights : dict Q)
    (code : string) (area_data : area) : candidate :=
  let scores := calculate_factor_scores area_data persona in
  let '(composite, contributions) :=
    calculate_composite_score scores adjusted_weights in
  {| area_code := code;
     composite_score := round1 composite;
     factor_scores := Dict.map_values round0 scores;
     factor_contributions := Dict.map_values round1 contributions;
     raw_data := area_data;
     rank := None |}.

(** One iteration of the scoring loop of [score_and_rank].  A dict's keys
    are distinct, so [enrichment_data[area_code]] is the value listed with
    [area_code]. *)
Definition score_step (persona : string) (p : preferences)
    (adjusted_weights : dict Q)
    (acc : list candidate * list filtered) (item : string * area)
  : list candidate * list filtered :=
  let '(scored_candidates, filtered_out) := acc in
  let '(code, area_data) := item in
  if negb (passes_constraints area_data p) then
    (scored_candidates,
     filtered_out ++ [ {| f_area_code := code;
                          f_reason := get_filter_reason area_data p |} ])
  else
    (scored_candidates ++ [ score_area persona adjusted_weights code area_data ],
     filtered_out).

Record output : Type := {
  out_persona : string;
  out_user_preferences : preferences;
  out_adjusted_weights : dict Q;
  recommendations : list candidate;
  filtered_out_count : nat;
  filtered_out_reasons : list filtered
}.

Definition score_and_rank (persona : string) (user_preferences : preferences)
    (enrichment_data : dict area) (top_n : Z) : result output :=
  if negb (Dict.mem persona PERSONA_WEIGHTS) then
    Raise (ValueError ("Invalid persona: " +:+ persona))
  else
    match calculate_adjusted_weights persona
            (default [] (importance_weights user_preferences)) with
    | Raise e => Raise e
    | Ok adjusted_weights =>
        let '(scored_candidates, filtered_out) :=
          fold_left (score_step persona user_preferences adjusted_weights)
                    enrichment_data ([], []) in
        (* Sort by composite score (descending) *)
        let scored_candidates := sort_desc composite_score scored_candidates in
        let top_candidates := slice_to top_n scored_candidates in
        let top_candidates := imap (fun i c => set_rank (i + 1) c) top_candidates in
        Ok {| out_persona := persona;
              out_user_preferences := user_preferences;
              out_adjusted_weights := adjusted_weights;
              recommendations := top_candidates;
              filtered_out_count := length filtered_out;
              filtered_out_reasons := slice_to 5 filtered_out |}
    end.


End ScoreAndRank.

(** ** tools/score_areas.py *)

Module ScoreAreas.

Abbreviation subrecord := (dict Q).

(** An element of [enriched_areas]: the ["area_code"] entry and the
    category sub-records (numeric fields only, as in [ScoreAndRank]). *)
Record enriched_area : Type := {
  ea_area_code : option string;
  ea_data : dict subrecord
}.

Definition student_weights : dict Q :=
  [ ("affordability", 0.35); ("commute", 0.25); ("safety", 0.15);
    ("amenities", 0.15); ("schools", 0.00); ("investment", 0.10) ].

(** Persona-specific weights. *)
Definition PERSONA_WEIGHTS : dict (dict Q) :=
  [ ("student", student_weights);
    ("parent",
      [ ("affordability", 0.20); ("commute", 0.15); ("safety", 0.25);
        ("amenities", 0.10); ("schools", 0.30); ("investment", 0.00) ]);
    ("developer",
      [ ("affordability", 0.10); ("commute", 0.05); ("safety", 0.10);
        ("amenities", 0.15); ("schools", 0.20); ("investment", 0.40) ]) ].

(** The adjustment loop: [weights[factor] *= 0.5 + (user_weight / 10)] for
    every entry of [user_weights] whose factor is weighted. *)
Definition apply_user_weights (weights user_weights : dict Q) : dict Q :=
  fold_left
    (fun weights fu =>
       match Dict.get (fst fu) weights with
       | Some w =>
           let multiplier := 0.5 + (snd fu / 10) in
           Dict.set (fst fu) (w * multiplier) weights
       | None => weights
       end)
    user_weights weights.

(** The weights applied by [calculate_composite_score]: base weights of the
    persona, falling back to the student profile, then the optional user
    adjustment and renormalisation to 1.0. *)
Definition resolve_weights (persona : string) (user_weights : option (dict Q))
  : dict Q :=
  let weights := Dict.get_or persona student_weights PERSONA_WEIGHTS in
  match user_weights with
  | Some ((_ :: _) as uw) =>
      let weights := apply_user_weights weights uw in
      let total := Qsum (Dict.values weights) in
      if Qltb 0 total then Dict.map_values (fun v => v / total) weights
      else weights
  | _ => weights
  end.

(** Factor scores (all normalised to 0-100); an absent sub-record is read
    as the empty mapping. *)
Definition extract_factor_scores (enrichment_data : dict subrecord) : dict Q :=
  let scansan := Dict.get_or "scansan" [] enrichment_data in
  let commute := Dict.get_or "commute" [] enrichment_data in
  let crime := Dict.get_or "crime" [] enrichment_data in
  let schools := Dict.get_or "schools" [] enrichment_data in
  let amenities := Dict.get_or "amenities" [] enrichment_data in
  [ ("affordability", Dict.get_or "affordability_score" 50 scansan);
    ("commute", 100 - Qmin 100 (Dict.get_or "duration_minutes" 30 commute / 60 * 100));
    ("safety", Dict.get_or "safety_score" 50 crime);
    ("amenities", Dict.get_or "density_score" 50 amenities);
    ("schools", Dict.get_or "avg_quality_score" 50 schools);
    ("investment", Dict.get_or "investment_quality" 50 scansan) ].

(** [factor_scores[factor] * weight for factor, weight in weights.items()] *)
Fixpoint weighted_terms (factor_scores weights : dict Q) : result (list Q) :=
  match weights with
  | [] => Ok []
  | (factor, weight) :: ws =>
      match Dict.get factor factor_scores with
      | None => Raise (KeyError factor)
      | Some s =>
          match weighted_terms factor_scores ws with
          | Ok ts => Ok (s * weight :: ts)
          | Raise e => Raise e
          end
      end
  end.

(** The numeric part of the returned dict. *)
Record score_data : Type := {
  sd_composite_score : Q;
  sd_factor_scores : dict Q;
  sd_weights_applied : dict Q
}.

Definition calculate_composite_score (enrichment_data : dict subrecord)
    (persona : string) (user_weights : option (dict Q)) : result score_data :=
  let weights := resolve_weights persona user_weights in
  let factor_scores := extract_factor_scores enrichment_data in
  match weighted_terms factor_scores weights with
  | Raise e => Raise e
  | Ok terms =>
      let composite_score := Qsum terms in
      Ok {| sd_composite_score := round1 composite_score;
            sd_factor_scores := factor_scores;
            sd_weights_applied := weights |}
  end.

Record recommendation : Type := {
  area_code : option string;
  rank : nat;
  composite_score : Q;
  factor_breakdown : dict Q;
  enrichment_data : dict subrecord
}.

Definition set_rank (r : nat) (rec : recommendation) : recommendation :=
  {| area_code := area_code rec; rank := r;
     composite_score := composite_score rec;
     factor_breakdown := factor_breakdown rec;
     enrichment_data := enrichment_data rec |}.

(** The loop of [rank_areas] that builds one recommendation per area. *)
Fixpoint build_recommendations (enriched_areas : list enriched_area)
    (persona : string) (user_weights : option (dict Q))
  : result (list recommendation) :=
  match enriched_areas with
  | [] => Ok []
  | area_data :: rest =>
      match calculate_composite_score (ea_data area_data) persona user_weights with
      | Raise e => Raise e
      | Ok sd =>
          let rec :=
            {| area_code := ea_area_code area_data;
               rank := 0;  (* Will be set after sorting *)
               composite_score := sd_composite_score sd;
               factor_breakdown := sd_factor_scores sd;
               enrichment_data := ea_data area_data |} in
          match build_recommendations rest persona user_weights with
          | Raise e => Raise e
          | Ok recs => Ok (rec :: recs)
          end
      end
  end.

Definition rank_areas (enriched_areas : list enriched_area) (persona : string)
    (user_weights : option (dict Q)) (limit : Z) : result (list recommendation) :=
  match build_recommendations enriched_areas persona user_weights with
  | Raise e => Raise e
  | Ok recommendations =>
      (* Sort by composite score *)
      let recommendations := sort_desc composite_score recommendations in
      (* Assign ranks *)
      Ok (imap (fun i rec => set_rank (i + 1) rec) (slice_to limit recommendations))
  end.

End ScoreAreas.

(** ** tools/cache_manager.py *)

Module CacheManager.

(** A TTL in hours: an integer, or [float('inf')]. *)
Inductive hours : Type :=
  | Hours (h : Z)
  | HoursInf.

Definition CACHE_VALIDITY : dict hours :=
  [ ("scansan_property", Hours 24);   (* hours *)
    ("scansan_trends", Hours 168);    (* 7 days *)
    ("tfl_commute", Hours 168);       (* 7 days *)
    ("crime", Hours 720);             (* 30 days *)
    ("schools", Hours 2160);          (* 90 days *)
    ("amenities", Hours 720);         (* 30 days *)
    ("video_url", HoursInf) ].        (* never expire *)

(** Instants and durations are counted in microseconds, the resolution of
    [datetime] and [timedelta]. *)
Definition us_per_hour : Z := 3600000000.
Definition us_per_day : Z := 86400000000.
Definition us_per_second : Z := 1000000.

(** [timedelta(hours=h)].  The constructor raises [OverflowError] for an
    infinite argument and for a magnitude beyond 999999999 days. *)
Definition timedelta_hours (h : hours) : result Z :=
  match h with
  | HoursInf => Raise OverflowError
  | Hours n =>
      let us := (n * us_per_hour)%Z in
      let days := (us / us_per_day)%Z in
      if ((-999999999 <=? days) && (days <=? 999999999))%Z then Ok us
      else Raise OverflowError
  end.

(** JSON values: what [json.dump] writes and [json.load] gives back.
    [JNull] is Python's [None]. *)
#[warnings="-register-all"]
Inductive json : Type :=
  | JNull
  | JBool (b : bool)
  | JNumber (q : Q)
  | JString (s : string)
  | JArray (l : list json)
  | JObject (o : list (string * json)).

(** ["_cache_timestamp"] as read back from a file: absent (or empty), not
    in ISO format, or an instant. *)
Inductive stamp : Type :=
  | NoStamp
  | BadStamp
  | Stamp (t : Z).

Record cache_data : Type := {
  _cache_timestamp : stamp;
  _cache_type : string;
  _cache_key : string;
  data : json
}.

(** Content of a cache file: a JSON object, or something [json.load]
    rejects. *)
Inductive file : Type :=
  | Unreadable
  | Document (d : cache_data).

(** The cache directory: file name to content. *)
Abbreviation store := (gmap string file).

Fixpoint replace_char (a b : Ascii.ascii) (s : string) : string :=
  match s with
  | EmptyString => EmptyString
  | String c s' => String (if Ascii.eqb c a then b else c) (replace_char a b s')
  end.

Definition backslash : Ascii.ascii := Ascii.ascii_of_nat 92.

(** The file name within [CACHE_DIR]. *)
Definition get_cache_path (cache_type key : string) : string :=
  (* Sanitize key for filename *)
  let safe_key :=
    replace_char " "%char "_"%char
      (replace_char backslash "_"%char (replace_char "/"%char "_"%char key)) in
  cache_type +:+ "_" +:+ safe_key +:+ ".json".

(** [read_cache] at clock reading [now]; the result [Ok JNull] is the
    returned [None] of a miss. *)
Definition read_cache (fs : store) (now : Z) (cache_type key : string)
    (max_age_hours : option Z) : result json :=
  let cache_path := get_cache_path cache_type key in
  match fs !! cache_path with
  | None => Ok JNull
  | Some Unreadable => Ok JNull
  | Some (Document cached_data) =>
      (* Check freshness *)
      match _cache_timestamp cached_data with
      | NoStamp => Ok JNull
      | BadStamp => Raise (ValueError "Invalid isoformat string")
      | Stamp cached_time =>
          (* Determine max age *)
          let max_age_hours :=
            match max_age_hours with
            | Some h => Hours h
            | None => Dict.get_or cache_type (Hours 24) CACHE_VALIDITY
            end in
          (* Check if cache is still valid *)
          let age := (now - cached_time)%Z in
          match timedelta_hours max_age_hours with
          | Raise e => Raise e
          | Ok max_age =>
              if (age >? max_age)%Z then Ok JNull else Ok (data cached_data)
          end
      end
  end.

(** What the disk does during a write. *)
Inductive io_outcome : Type :=
  | IoOk
  | IoOpenFails
  | IoWriteFails.

(** [write_cache] at clock reading [now]: the returned flag and the cache
    directory afterwards. *)
Definition write_cache (fs : store) (now : Z) (io : io_outcome)
    (cache_type key : string) (payload : json) : bool * store :=
  let cache_path := get_cache_path cache_type key in
  let cache_data :=
    {| _cache_timestamp := Stamp now;
       _cache_type := cache_type;
       _cache_key := key;
       data := payload |} in
  match io with
  | IoOk => (true, <[cache_path := Document cache_data]> fs)
  | IoOpenFails => (false, fs)
  | IoWriteFails => (false, <[cache_path := Unreadable]> fs)
  end.

End CacheManager.

(** ** Vocabulary of the statements *)

Module Notions.
Import ScoreAndRank.

(** What [calculate_composite_score] adds for one weighted factor. *)
Definition contribution_of (scores : dict Q) (fw : string * Q) : Q :=
  match Dict.get (fst fw) scores with
  | Some s => (s * snd fw) / 100
  | None => 0
  end.

(** The contribution under the neutral-midpoint reading: the score, or 50
    when the factor has none, times the weight over 100. *)
Definition midpoint_contribution_of (scores : dict Q) (fw : string * Q) : Q :=
  (Dict.get_or (fst fw) 50 scores * snd fw) / 100.

(** The weight a factor gets from the scaling loop of
    [ScoreAndRank.calculate_adjusted_weights]. *)
Definition scaled_entry (user_importance : dict Q) (fw : string * Q) : string * Q :=
  (fst fw, snd fw * (Dict.get_or (fst fw) 5 user_importance / 5)).

Definition rating_in_range (kr : string * Q) : Prop := 0 <= snd kr /\ snd kr <= 10.

(** The input entries that pass, respectively fail, the hard constraints. *)
Definition passing (p : preferences) (enrichment_data : dict area) : dict area :=
  List.filter (fun it => passes_constraints (snd it) p) enrichment_data.

Definition rejected (p : preferences) (enrichment_data : dict area) : dict area :=
  List.filter (fun it => negb (passes_constraints (snd it) p)) enrichment_data.

(** The input entry a candidate was scored from. *)
Definition item_of (c : candidate) : string * area := (area_code c, raw_data c).


(** The candidate scored from an input entry, and the record kept for a
    rejected one. *)
Definition scored_item (persona : string) (weights : dict Q)
    (it : string * area) : candidate :=
  score_area persona weights (fst it) (snd it).

Definition rejected_item (p : preferences) (it : string * area) : filtered :=
  {| f_area_code := fst it; f_reason := get_filter_reason (snd it) p |}.


(** The TTL that [CacheManager.read_cache] applies: the explicit
    [max_age_hours], or the category default (24 hours for a category
    outside the table). *)
Definition applicable_ttl (cache_type : string) (max_age_hours : option Z)
  : CacheManager.hours :=
  match max_age_hours with
  | Some h => CacheManager.Hours h
  | None => Dict.get_or cache_type (CacheManager.Hours 24) CacheManager.CACHE_VALIDITY
  end.

End Notions.

(** ** Sample inputs *)

Module Samples.
Import ScoreAndRank.

(** [user_preferences = {}] *)
Definition no_preferences : preferences :=
  {| budget_max := None; max_commute_minutes := None; min_safety_score := None;
     min_school_rating := None; importance_weights := None |}.

(** Two areas that differ only in the second decimal of affordability. *)
Definition area_a : area :=
  [ ("scansan", [("affordability_score", 80); ("investment_quality", 60)]);
    ("commute", [("duration_minutes", 30)]);
    ("crime", [("safety_score", 70)]);
    ("amenities", [("density_score", 60)]) ].

Definition area_b : area :=
  [ ("scansan", [("affordability_score", 80.1); ("investment_quality", 60)]);
    ("commute", [("duration_minutes", 30)]);
    ("crime", [("safety_score", 70)]);
    ("amenities", [("density_score", 60)]) ].

Definition two_areas : dict area := [("A", area_a); ("B", area_b)].

(** Eleven areas without any data. *)
Definition eleven_areas : dict area :=
  map (fun code => (code, []))
    ["A01"; "A02"; "A03"; "A04"; "A05"; "A06"; "A07"; "A08"; "A09"; "A10"; "A11"].

Definition two_enriched_areas : list ScoreAreas.enriched_area :=
  [ {| ScoreAreas.ea_area_code := Some "A";
       ScoreAreas.ea_data := [("scansan", [("affordability_score", 80)])] |};
    {| ScoreAreas.ea_area_code := Some "B";
       ScoreAreas.ea_data := [("scansan", [("affordability_score", 80.1)])] |} ].

Definition sample_payload : CacheManager.json :=
  CacheManager.JObject
    [ ("area_code", CacheManager.JString "E1 6AN");
      ("affordability_score", CacheManager.JNumber 92) ].

End Samples.

(** ** execution/score_and_rank.py: the text annotations *)

Module Annotations.
Import ScoreAndRank.

Definition is_lower (c : Ascii.ascii) : bool :=
  (97 <=? Ascii.nat_of_ascii c)%nat && (Ascii.nat_of_ascii c <=? 122)%nat.

Definition is_upper (c : Ascii.ascii) : bool :=
  (65 <=? Ascii.nat_of_ascii c)%nat && (Ascii.nat_of_ascii c <=? 90)%nat.

Definition to_upper (c : Ascii.ascii) : Ascii.ascii :=
  Ascii.ascii_of_nat (Ascii.nat_of_ascii c - 32).

Definition to_lower (c : Ascii.ascii) : Ascii.ascii :=
  Ascii.ascii_of_nat (Ascii.nat_of_ascii c + 32).

(** [s.title()] on ASCII text: a letter that follows a letter is put in
    lower case, any other letter in upper case. *)
Fixpoint title_from (previous_is_cased : bool) (s : string) : string :=
  match s with
  | EmptyString => EmptyString
  | String c s' =>
      if is_lower c then
        String (if previous_is_cased then c else to_upper c) (title_from true s')
      else if is_upper c then
        String (if previous_is_cased then to_lower c else c) (title_from true s')
      else String c (title_from false s')
  end.

Definition title (s : string) : string := title_from false s.

(** [factor.replace("_", " ")] *)
Definition spaced (factor : string) : string :=
  CacheManager.replace_char "_"%char " "%char factor.

(** [sorted(scores.items(), key=lambda x: x[1], reverse=True)] *)
Definition sorted_scores (scores : dict Q) : dict Q := sort_desc snd scores.

(** [l[-2:]] *)
Definition last_two {A : Type} (l : list A) : list A := drop (length l - 2) l.

(** The entries of the top-3 window with [score >= 80], best first. *)
Definition strength_entries (scores : dict Q) : dict Q :=
  List.filter (fun fs => Qle_bool 80 (snd fs)) (take 3 (sorted_scores scores)).

(** The entries of the bottom-2 window with [score < 60], worst first. *)
Definition weakness_entries (scores : dict Q) : dict Q :=
  List.filter (fun fs => Qltb (snd fs) 60) (rev (last_two (sorted_scores scores))).

Definition identify_strengths_weaknesses (scores : dict Q) (persona : string)
  : list string * list string :=
  (map (fun fs => title (spaced (fst fs))) (strength_entries scores),
   map (fun fs => title (spaced (fst fs))) (weakness_entries scores)).

(** One iteration of the comparison loop of [generate_trade_offs]. *)
Definition compare_step (top_scores : dict Q) (acc : list string * list string)
    (fs : string * Q) : list string * list string :=
  let '(better_factors, worse_factors) := acc in
  let top_score := Dict.get_or (fst fs) 50 top_scores in
  if Qltb (top_score + 5) (snd fs) then
    (better_factors ++ [spaced (fst fs)], worse_factors)
  else if Qltb (snd fs) (top_score - 5) then
    (better_factors, worse_factors ++ [spaced (fst fs)])
  else (better_factors, worse_factors).

Definition top_statement : string :=
  "Top-ranked with best overall balance of factors".

Definition similar_statement : string := "Similar profile to top choice".

(** [generate_trade_offs]; [None] stands for the exception raised when
    the candidate has no rank ([KeyError]) or [all_top] is empty
    ([IndexError]). *)
Definition generate_trade_offs (c : candidate) (all_top : list candidate)
    (persona : string) : option string :=
  match rank c with
  | None => None
  | Some 1%nat => Some top_statement
  | Some _ =>
      (* Find what this candidate excels at vs #1 *)
      match all_top with
      | [] => None
      | top_candidate :: _ =>
          let '(better_factors, worse_factors) :=
            fold_left (compare_step (factor_scores top_candidate))
                      (factor_scores c) ([], []) in
          match better_factors, worse_factors with
          | _ :: _, _ :: _ =>
              Some ("Better " +:+ String.concat ", " (take 2 better_factors)
                    +:+ " but lower " +:+ String.concat ", " (take 2 worse_factors))
          | _, _ :: _ =>
              Some ("Lower " +:+ String.concat ", " (take 2 worse_factors)
                    +:+ " than top choice")
          | _, [] => Some similar_statement
          end
      end
  end.

(** The [trade_offs] entries that the ranking loop of [score_and_rank]
    attaches to the recommendations, in list order. *)
Definition trade_offs_of (persona : string) (top_candidates : list candidate)
  : list (option string) :=
  map (fun c => generate_trade_offs c top_candidates persona) top_candidates.

End Annotations.

(** ** tools/cache_manager.py: invalidation and sweep *)

Module CacheSweep.
Import CacheManager.

(** [invalidate_cache]; [unlink_ok] tells whether the disk lets the file be
    removed. *)
Definition invalidate_cache (fs : store) (unlink_ok : bool)
    (cache_type key : string) : bool * store :=
  let cache_path := get_cache_path cache_type key in
  match fs !! cache_path with
  | Some _ => if unlink_ok then (true, delete cache_path fs) else (false, fs)
  | None => (false, fs)
  end.

(** [timedelta(days=d)], with the same bound as [timedelta_hours]. *)
Definition timedelta_days (d : Z) : result Z :=
  if ((-999999999 <=? d) && (d <=? 999999999))%Z then Ok (d * us_per_day)%Z
  else Raise OverflowError.

(** One iteration of the loop of [clean_old_cache] over the cache files.
    An unreadable file and a file without timestamp are left alone; a
    timestamp that is not in ISO format raises [ValueError], which the loop
    does not catch. *)
Definition sweep_file (now max_age : Z) (acc : result (nat * store))
    (entry : string * file) : result (nat * store) :=
  match acc with
  | Raise e => Raise e
  | Ok (count_deleted, fs) =>
      match snd entry with
      | Unreadable => Ok (count_deleted, fs)
      | Document cached_data =>
          match _cache_timestamp cached_data with
          | NoStamp => Ok (count_deleted, fs)
          | BadStamp => Raise (ValueError "Invalid isoformat string")
          | Stamp cached_time =>
              if (now - cached_time >? max_age)%Z
              then Ok (S count_deleted, delete (fst entry) fs)
              else Ok (count_deleted, fs)
          end
      end
  end.

(** [clean_old_cache] at clock reading [now]: the number of files deleted
    and the cache directory afterwards.  The files are visited in the order
    in which the directory lists them. *)
Definition clean_old_cache (fs : store) (now : Z) (max_age_days : Z)
  : result (nat * store) :=
  match timedelta_days max_age_days with
  | Raise e => Raise e
  | Ok max_age => fold_left (sweep_file now max_age) (map_to_list fs) (Ok (0%nat, fs))
  end.

End CacheSweep.

(** ** The cached fetchers of [tools/] *)

Module Fetchers.
Import CacheManager.

(** Python truth value of a JSON value, as tested by [if cached:]. *)
Definition truthy (v : json) : bool :=
  match v with
  | JNull => false
  | JBool b => b
  | JNumber q => negb (Qeq_bool q 0)
  | JString s => negb (String.eqb s "")
  | JArray l => match l with [] => false | _ :: _ => true end
  | JObject o => match o with [] => false | _ :: _ => true end
  end.

(** The pattern shared by the cached fetchers: look in the cache at clock
    reading [now]; on a miss call the collaborator [fetch] and, when the
    data is truthy, cache it at clock reading [later].  The result is the
    returned data and the cache directory afterwards. *)
Definition cached_fetch (cache_type : string) (fetch : string -> json)
    (fs : store) (now later : Z) (io : io_outcome)
    (key : string) (use_cache : bool) : result (json * store) :=
  let miss :=
    let data := fetch key in
    if truthy data && use_cache
    then Ok (data, snd (write_cache fs later io cache_type key data))
    else Ok (data, fs) in
  if use_cache then
    match read_cache fs now cache_type key None with
    | Raise e => Raise e
    | Ok cached => if truthy cached then Ok (cached, fs) else miss
    end
  else miss.

(** [fetch_crime_data] of [tools/fetch_crime_data.py] *)
Definition fetch_crime_data (fetch_crime_data_api : string -> json)
    (fs : store) (now later : Z) (io : io_outcome)
    (area_code : string) (use_cache : bool) : result (json * store) :=
  cached_fetch "crime_data" fetch_crime_data_api fs now later io area_code use_cache.

(** [fetch_amenities_data] of [tools/fetch_amenities.py] *)
Definition fetch_amenities_data (fetch_amenities_osm : string -> json)
    (fs : store) (now later : Z) (io : io_outcome)
    (area_code : string) (use_cache : bool) : result (json * store) :=
  cached_fetch "amenities_data" fetch_amenities_osm fs now later io area_code use_cache.

(** [fetch_scansan_data] of [tools/fetch_scansan.py]; [fetch] is the
    real or the mock source, whichever is configured. *)
Definition fetch_scansan_data (fetch : string -> json)
    (fs : store) (now later : Z) (io : io_outcome)
    (area_code : string) (use_cache : bool) : result (json * store) :=
  cached_fetch "scansan_property" fetch fs now later io area_code use_cache.

End Fetchers.

(** ** Further vocabulary *)

Module MoreNotions.
Import ScoreAndRank CacheManager.

Definition score_in_range (fs : string * Q) : Prop := 0 <= snd fs /\ snd fs <= 100.

(** A file that [clean_old_cache] deletes: a stamped document older than
    [max_age]. *)
Definition expired (now max_age : Z) (f : file) : bool :=
  match f with
  | Unreadable => false
  | Document d =>
      match _cache_timestamp d with
      | Stamp t => (now - t >? max_age)%Z
      | _ => false
      end
  end.

Definition bad_stamp (f : file) : bool :=
  match f with
  | Document d => match _cache_timestamp d with BadStamp => true | _ => false end
  | Unreadable => false
  end.

(** The key as it appears in the file name. *)
Definition safe_key (key : string) : string :=
  replace_char " "%char "_"%char
    (replace_char backslash "_"%char (replace_char "/"%char "_"%char key)).

(** Whether the listing [l] holds a file named [k] that the sweep deletes. *)
Definition swept (now max_age : Z) (l : list (string * file)) (k : string) : bool :=
  existsb (fun e => String.eqb (fst e) k && expired now max_age (snd e)) l.

(** A cached fetcher serves a successful fetch from the cache category
    [cache_type] for [h] hours: after a call that found nothing usable in
    the cache and fetched truthy data, a later call within [h] hours of the
    write returns that data unchanged without asking its collaborator, and
    a call after more than [h] hours asks the collaborator again. *)
Definition serves_from_cache_for (cache_type : string) (h : Z)
    (fetcher : (string -> json) -> store -> Z -> Z -> io_outcome -> string -> bool
               -> result (json * store)) : Prop :=
  forall (api api' : string -> json) (fs : store) (now later now2 later2 : Z)
         (io2 : io_outcome) (key : string) (cached : json),
    read_cache fs now cache_type key None = Ok cached ->
    Fetchers.truthy cached = false ->
    Fetchers.truthy (api key) = true ->
    exists fs1,
      fetcher api fs now later IoOk key true = Ok (api key, fs1) /\
      ((now2 - later <= h * us_per_hour)%Z ->
       fetcher api' fs1 now2 later2 io2 key true = Ok (api key, fs1)) /\
      ((now2 - later > h * us_per_hour)%Z ->
       exists fs2, fetcher api' fs1 now2 later2 io2 key true = Ok (api' key, fs2)).

End MoreNotions.

(** * Properties *)

(** ** Dictionaries *)

Section DictFacts.
Context {V : Type}.
Implicit Types (d : dict V) (k : string) (v : V).

Lemma get_set_eq k v d : Dict.get k (Dict.set k v d) = Some v.
Proof.
  induction d as [|[k' v'] d IH]; simpl.
  - by rewrite String.eqb_refl.
  - destruct (String.eqb k k') eqn:E; simpl.
    + by rewrite String.eqb_refl.
    + by rewrite E.
Qed.

Lemma get_set_ne k k' v d : k <> k' -> Dict.get k' (Dict.set k v d) = Dict.get k' d.
Proof.
  intros Hne. induction d as [|[k0 v0] d IH]; simpl.
  - destruct (String.eqb k' k) eqn:E; [|done].
    apply String.eqb_eq in E. congruence.
  - destruct (String.eqb k k0) eqn:E; simpl.
    + apply String.eqb_eq in E. subst k0.
      destruct (String.eqb k' k) eqn:E'; [|done].
      apply String.eqb_eq in E'. congruence.
    + by rewrite IH.
Qed.

Lemma get_Some_In k v d : Dict.get k d = Some v -> In (k, v) d.
Proof.
  induction d as [|[k' v'] d IH]; simpl; [done|].
  destruct (String.eqb k k') eqn:E.
  - apply String.eqb_eq in E. intros [= ->]. left. by subst.
  - intros H. right. auto.
Qed.

Lemma get_None_not_key k d : Dict.get k d = None -> ~ In k (Dict.keys d).
Proof.
  induction d as [|[k' v'] d IH]; simpl; [tauto|].
  destruct (String.eqb k k') eqn:E; [done|].
  apply String.eqb_neq in E. intros H [Hk|Hk]; [congruence|]. by apply IH.
Qed.

Lemma get_map_values {W : Type} (f : V -> W) k d :
  Dict.get k (Dict.map_values f d) = f <$> Dict.get k d.
Proof.
  induction d as [|[k' v'] d IH]; simpl; [done|].
  by destruct (String.eqb k k').
Qed.
End DictFacts.

(** ** Rational arithmetic *)

Lemma Qltb_lt a b : Qltb a b = true <-> a < b.
Proof.
  unfold Qltb. rewrite negb_true_iff, <- not_true_iff_false, Qle_bool_iff.
  split; [apply Qnot_le_lt | apply Qlt_not_le].
Qed.

Lemma Qltb_ge a b : Qltb a b = false <-> b <= a.
Proof.
  unfold Qltb. rewrite negb_false_iff, Qle_bool_iff. tauto.
Qed.

Lemma fold_Qplus_shift (xs : list Q) (a : Q) : fold_left Qplus xs a == a + Qsum xs.
Proof.
  unfold Qsum. revert a. induction xs as [|x xs IH]; intros a; simpl.
  - ring.
  - rewrite IH, (IH (0 + x)). ring.
Qed.

Lemma Qsum_cons (x : Q) (xs : list Q) : Qsum (x :: xs) == x + Qsum xs.
Proof. unfold Qsum at 1. simpl. rewrite fold_Qplus_shift. ring. Qed.

Lemma Qsum_app (xs ys : list Q) : Qsum (xs ++ ys) == Qsum xs + Qsum ys.
Proof.
  induction xs as [|x xs IH]; simpl.
  - unfold Qsum at 2. simpl. ring.
  - rewrite !Qsum_cons, IH. ring.
Qed.

Lemma Qsum_nonneg (xs : list Q) : Forall (fun x => 0 <= x) xs -> 0 <= Qsum xs.
Proof.
  induction 1 as [|x xs Hx _ IH].
  - unfold Qsum. simpl. apply Qle_refl.
  - rewrite Qsum_cons. replace 0 with (0 + 0) by reflexivity.
    by apply Qplus_le_compat.
Qed.

Lemma Qsum_scale (c : Q) (xs : list Q) : Qsum (map (fun v => v * c) xs) == Qsum xs * c.
Proof.
  induction xs as [|x xs IH]; simpl.
  - unfold Qsum. simpl. ring.
  - rewrite !Qsum_cons, IH. ring.
Qed.

(** ** The stable descending sort *)

Section SortFacts.
Context {A : Type} (key : A -> Q).

Lemma insert_desc_split (x : A) (l : list A) :
  exists l1 l2, l = l1 ++ l2 /\ insert_desc key x l = l1 ++ x :: l2 /\
                Forall (fun y => key x < key y) l1 /\
                Forall (fun y => key y <= key x) (firstn 1 l2).
Proof.
  induction l as [|y l IH]; simpl.
  - exists [], []. by repeat split.
  - destruct (Qltb (key x) (key y)) eqn:E.
    + destruct IH as (l1 & l2 & -> & -> & H1 & H2).
      exists (y :: l1), l2. repeat split; [|done].
      constructor; [by apply Qltb_lt|done].
    + exists [], (y :: l). repeat split; [done|].
      simpl. constructor; [by apply Qltb_ge|done].
Qed.

Lemma insert_desc_perm (x : A) (l : list A) : insert_desc key x l ≡ₚ x :: l.
Proof.
  destruct (insert_desc_split x l) as (l1 & l2 & -> & -> & _).
  by rewrite Permutation_middle.
Qed.

Lemma sort_desc_perm (l : list A) : sort_desc key l ≡ₚ l.
Proof.
  induction l as [|x l IH]; simpl; [done|].
  by rewrite insert_desc_perm, IH.
Qed.

Lemma sort_desc_length (l : list A) : length (sort_desc key l) = length l.
Proof. by rewrite sort_desc_perm. Qed.

Lemma insert_desc_sorted (x : A) (l : list A) :
  StronglySorted (desc key) l -> StronglySorted (desc key) (insert_desc key x l).
Proof.
  induction 1 as [|y l Hs IH Hy]; simpl.
  - repeat constructor.
  - destruct (Qltb (key x) (key y)) eqn:E.
    + constructor; [done|].
      rewrite insert_desc_perm. constructor; [|done].
      apply Qltb_lt in E. by apply Qlt_le_weak.
    + apply Qltb_ge in E. constructor; [by constructor|].
      constructor; [done|].
      eapply Forall_impl; [exact Hy|]. unfold desc. intros z Hz.
      by eapply Qle_trans.
Qed.

Lemma sort_desc_sorted (l : list A) : StronglySorted (desc key) (sort_desc key l).
Proof.
  induction l as [|x l IH]; simpl; [constructor|].
  by apply insert_desc_sorted.
Qed.

(** Stability: two elements with equal keys come out in the order in
    which they went in. *)
Lemma sort_desc_stable (l : list A) (a b : A) :
  [a; b] `sublist_of` sort_desc key l -> key a == key b -> [a; b] `sublist_of` l.
Proof.
  revert a b. induction l as [|x l IH]; intros a b Hsub Heq; simpl in Hsub.
  { done. }
  destruct (insert_desc_split x (sort_desc key l)) as (l1 & l2 & Hl & Hi & H1 & _).
  rewrite Hi in Hsub.
  assert (Hmem : forall c, c ∈ l1 ++ l2 -> [c] `sublist_of` l).
  { intros c Hc. rewrite <- Hl, sort_desc_perm in Hc.
    by apply singleton_sublist_l. }
  apply sublist_app_r in Hsub as (k1 & k2 & Hk & Hk1 & Hk2).
  destruct k1 as [|a' [|b' k1]]; simpl in Hk.
  - (* both taken from [x :: l2] *)
    subst k2.
    apply sublist_cons_r in Hk2 as [Hk2|(k' & Hk' & Hk2)].
    + apply sublist_cons. apply IH; [|done]. rewrite Hl.
      by apply sublist_inserts_l.
    + injection Hk' as -> <-. apply sublist_skip. apply Hmem.
      apply elem_of_app. right. by apply singleton_sublist_l.
  - (* [a] from [l1], [b] from [x :: l2] *)
    injection Hk as <- <-.
    apply sublist_cons_r in Hk2 as [Hk2|(k' & Hk' & Hk2)].
    + apply sublist_cons. apply IH; [|done]. rewrite Hl.
      by apply (sublist_app [a] l1 [b] l2).
    + injection Hk' as -> <-. exfalso. apply singleton_sublist_l in Hk1.
      rewrite Forall_forall in H1. specialize (H1 a Hk1).
      rewrite Heq in H1. by apply Qlt_irrefl in H1.
  - (* both taken from [l1] *)
    injection Hk as <- <- Hk. symmetry in Hk. apply app_eq_nil in Hk as [-> ->].
    apply sublist_cons. apply IH; [|done]. rewrite Hl.
    by apply sublist_inserts_r.
Qed.
End SortFacts.

Lemma Qsum_map_ext {A : Type} (f g : A -> Q) (l : list A) :
  (forall x, In x l -> f x == g x) -> Qsum (map f l) == Qsum (map g l).
Proof.
  induction l as [|x l IH]; intros H; simpl; [reflexivity|].
  rewrite !Qsum_cons, (H x), IH; [reflexivity| |by left].
  intros y Hy. apply H. by right.
Qed.


(** ** The composite scorer of [execution/score_and_rank.py] *)

Module CompositeFacts.
Import ScoreAndRank Notions.

Lemma composite_fold (scores weights : dict Q) (c : Q) (contribs : dict Q) :
  fst (fold_left (composite_step scores) weights (c, contribs))
  == c + Qsum (map (contribution_of scores) weights).
Proof.
  revert c contribs. induction weights as [|[f w] ws IH]; intros c contribs; simpl.
  - unfold Qsum. simpl. ring.
  - rewrite Qsum_cons.
    change (contribution_of scores (f, w))
      with (match Dict.get f scores with Some s => (s * w) / 100 | None => 0 end).
    destruct (Dict.get f scores) as [s|]; rewrite IH; ring.
Qed.

Lemma contributions_fold (scores weights : dict Q) (c : Q) (contribs : dict Q)
    (f : string) :
  Dict.get f scores = None ->
  In f (Dict.keys weights) \/ Dict.get f contribs = Some 0 ->
  Dict.get f (snd (fold_left (composite_step scores) weights (c, contribs))) = Some 0.
Proof.
  intros Hf. revert c contribs.
  induction weights as [|[f' w] ws IH]; intros c contribs H; simpl.
  - destruct H as [[]|H]. done.
  - assert (Hstep : forall c' s', In f (Dict.keys ws) \/
              Dict.get f (Dict.set f' s' contribs) = Some 0 ->
              Dict.get f (snd (fold_left (composite_step scores) ws
                                 (c', Dict.set f' s' contribs))) = Some 0)
      by (intros; by apply IH).
    destruct (String.eqb f' f) eqn:E.
    + apply String.eqb_eq in E. subst f'. rewrite Hf.
      apply Hstep. right. apply get_set_eq.
    + apply String.eqb_neq in E.
      assert (Hrest : forall s', In f (Dict.keys ws) \/
                Dict.get f (Dict.set f' s' contribs) = Some 0).
      { intros s'. destruct H as [[Hk|Hk]|Hc]; [done|by left|].
        right. by rewrite get_set_ne. }
      destruct (Dict.get f' scores) as [s|]; by apply Hstep.
Qed.

(** C1 (as amended): a factor that carries a weight but has no score is
    entered in the contributions with 0 and adds nothing to the composite:
    the composite is the sum, over the weighted factors that have a score,
    of [score * weight / 100]. *)
Theorem composite_skips_unscored (scores weights : dict Q) (f : string) (w : Q) :
  Dict.get f weights = Some w ->
  Dict.get f scores = None ->
  Dict.get f (snd (calculate_composite_score scores weights)) = Some 0 /\
  contribution_of scores (f, w) = 0 /\
  fst (calculate_composite_score scores weights)
  == Qsum (map (contribution_of scores) weights).
Proof.
  intros Hw Hs. unfold calculate_composite_score. split; [|split].
  - apply contributions_fold; [done|]. left.
    apply get_Some_In in Hw. by apply (in_map fst) in Hw.
  - unfold contribution_of. simpl. by rewrite Hs.
  - rewrite composite_fold. ring.
Qed.

Lemma composite_skips_unscored_witness :
  Dict.get "investment_quality"
    (snd (calculate_composite_score [("affordability", 92)]
            [("affordability", 35); ("investment_quality", 5)])) = Some 0 /\
  contribution_of [("affordability", 92)] ("investment_quality", 5) = 0 /\
  fst (calculate_composite_score [("affordability", 92)]
         [("affordability", 35); ("investment_quality", 5)])
  == Qsum (map (contribution_of [("affordability", 92)])
             [("affordability", 35); ("investment_quality", 5)]).
Proof.
  apply (composite_skips_unscored [("affordability", 92)]
           [("affordability", 35); ("investment_quality", 5)]
           "investment_quality" 5); reflexivity.
Defined.

(** C1 fails as stated: for the student weights and an area without a
    property-intelligence sub-record but with a safety score, the weighted
    factor [investment_quality] contributes 0, not 50 * 5 / 100, and the
    composite differs from the sum taken with the neutral midpoint. *)
Lemma composite_midpoint_counterexample :
  let scores := [("safety", 78)] in
  let weights :=
    [ ("affordability", 35); ("commute", 25); ("safety", 15);
      ("amenities", 20); ("investment_quality", 5) ] in
  Dict.get "student" PERSONA_WEIGHTS = Some weights /\
  calculate_factor_scores [("crime", [("safety_score", 78)])] "student" = scores /\
  Dict.get "investment_quality" weights = Some 5 /\
  Dict.get "investment_quality" scores = None /\
  Dict.get "investment_quality" (snd (calculate_composite_score scores weights))
    = Some 0 /\
  ~ (0 == 50 * 5 / 100) /\
  fst (calculate_composite_score scores weights) == 11.7 /\
  Qsum (map (midpoint_contribution_of scores) weights) == 54.2 /\
  ~ (fst (calculate_composite_score scores weights)
     == Qsum (map (midpoint_contribution_of scores) weights)).
Proof.
  cbv zeta. repeat split; try reflexivity; by vm_compute.
Qed.

End CompositeFacts.

(** ** The weight resolvers *)

Module WeightFacts.
Import Notions.

Lemma set_fresh {V : Type} (k : string) (v : V) (d : dict V) :
  ~ In k (Dict.keys d) -> Dict.set k v d = d ++ [(k, v)].
Proof.
  induction d as [|[k' v'] d IH]; simpl; intros Hk; [done|].
  destruct (String.eqb k k') eqn:E.
  - apply String.eqb_eq in E. subst k'. exfalso. apply Hk. by left.
  - rewrite IH; [done|]. intros Hin. apply Hk. by right.
Qed.

Lemma scale_fold (ui base acc : dict Q) :
  List.NoDup (Dict.keys (acc ++ base)) ->
  fold_left
    (fun adjusted fw =>
       Dict.set (fst fw) (snd fw * (Dict.get_or (fst fw) 5 ui / 5)) adjusted)
    base acc
  = acc ++ map (scaled_entry ui) base.
Proof.
  revert acc. induction base as [|[f w] base IH]; intros acc Hnd; simpl.
  - by rewrite app_nil_r.
  - unfold Dict.keys in Hnd. rewrite map_app in Hnd. simpl in Hnd.
    rewrite set_fresh.
    + rewrite IH.
      * by rewrite <- app_assoc.
      * unfold Dict.keys. rewrite !map_app. simpl. by rewrite <- app_assoc.
    + apply NoDup_remove_2 in Hnd. intros Hin. apply Hnd.
      apply in_or_app. by left.
Qed.

Lemma scale_by_importance_map (ui base : dict Q) :
  List.NoDup (Dict.keys base) ->
  ScoreAndRank.scale_by_importance base ui = map (scaled_entry ui) base.
Proof. intros Hnd. unfold ScoreAndRank.scale_by_importance. by rewrite scale_fold. Qed.

Lemma get_map_scaled (ui base : dict Q) (f : string) :
  Dict.get f (map (scaled_entry ui) base)
  = (fun w => w * (Dict.get_or f 5 ui / 5)) <$> Dict.get f base.
Proof.
  induction base as [|[k v] base IH]; simpl; [done|].
  destruct (String.eqb f k) eqn:E; [|done].
  apply String.eqb_eq in E. by subst.
Qed.

(** The base tables of [execution/score_and_rank.py]: distinct factors,
    non-negative weights, total 100. *)
Lemma base_weights_wf (persona : string) (base : dict Q) :
  Dict.get persona ScoreAndRank.PERSONA_WEIGHTS = Some base ->
  List.NoDup (Dict.keys base) /\ Forall (fun fw => 0 <= snd fw) base /\
  Qsum (Dict.values base) == 100.
Proof.
  unfold ScoreAndRank.PERSONA_WEIGHTS. simpl.
  repeat (match goal with
          | |- context [String.eqb ?a ?b] => destruct (String.eqb a b)
          end); intros [= <-]; (split; [|split]);
    try reflexivity;
    try (apply NoDup_ListNoDup; apply (bool_decide_unpack _); by vm_compute);
    repeat constructor; by vm_compute.
Qed.

(** The pre-normalisation weight in [execution/score_and_rank.py]. *)
Lemma scaled_weight_exec (persona : string) (base ui : dict Q) (f : string) (w r : Q) :
  Dict.get persona ScoreAndRank.PERSONA_WEIGHTS = Some base ->
  Dict.get f base = Some w ->
  Dict.get f ui = Some r ->
  Dict.get f (ScoreAndRank.scale_by_importance base ui) = Some (w * (r / 5)).
Proof.
  intros Hb Hw Hr. apply base_weights_wf in Hb as (Hnd & _).
  rewrite scale_by_importance_map, get_map_scaled, Hw by done. simpl.
  unfold Dict.get_or. by rewrite Hr.
Qed.

Lemma apply_user_weights_other (weights uw : dict Q) (f : string) :
  ~ In f (Dict.keys uw) ->
  Dict.get f (ScoreAreas.apply_user_weights weights uw) = Dict.get f weights.
Proof.
  unfold ScoreAreas.apply_user_weights. revert weights.
  induction uw as [|[k r] uw IH]; intros weights Hf; simpl; [done|].
  simpl in Hf. rewrite IH by tauto.
  destruct (Dict.get k weights); [|done]. apply get_set_ne. tauto.
Qed.

(** The pre-normalisation weight in [tools/score_areas.py]. *)
Lemma scaled_weight_tools (weights uw : dict Q) (f : string) (w r : Q) :
  List.NoDup (Dict.keys uw) ->
  Dict.get f weights = Some w ->
  Dict.get f uw = Some r ->
  Dict.get f (ScoreAreas.apply_user_weights weights uw)
  = Some (w * (0.5 + r / 10)).
Proof.
  revert weights. induction uw as [|[k r0] uw IH]; intros weights Hnd Hw Hr.
  { done. }
  simpl in Hnd. apply List.NoDup_cons_iff in Hnd as [Hk Hnd].
  simpl in Hr. change (ScoreAreas.apply_user_weights weights ((k, r0) :: uw))
    with (ScoreAreas.apply_user_weights
            (match Dict.get k weights with
             | Some w0 => Dict.set k (w0 * (0.5 + r0 / 10)) weights
             | None => weights
             end) uw).
  destruct (String.eqb f k) eqn:E.
  - apply String.eqb_eq in E. subst k. injection Hr as ->.
    rewrite apply_user_weights_other, Hw by done. apply get_set_eq.
  - apply String.eqb_neq in E. apply IH; [done| |done].
    destruct (Dict.get k weights); [|done]. rewrite get_set_ne; [done|congruence].
Qed.

(** C2 (as amended): the two resolvers scale differently.  In
    [tools/score_areas.py] a weighted factor rated [r] gets the
    pre-normalisation weight [w * (0.5 + r/10)], so 0 halves it, 5 keeps it
    and 10 gives [1.5 * w]; in [execution/score_and_rank.py] it gets
    [w * (r / 5)], so 0 removes it, 5 keeps it and 10 doubles it. *)
Theorem prenormalization_weight :
  (forall (persona : string) (uw : dict Q) (f : string) (w r : Q),
     List.NoDup (Dict.keys uw) ->
     Dict.get f (Dict.get_or persona ScoreAreas.student_weights
                   ScoreAreas.PERSONA_WEIGHTS) = Some w ->
     Dict.get f uw = Some r ->
     Dict.get f (ScoreAreas.apply_user_weights
                   (Dict.get_or persona ScoreAreas.student_weights
                      ScoreAreas.PERSONA_WEIGHTS) uw)
     = Some (w * (0.5 + r / 10)) /\
     w * (0.5 + 0 / 10) == w / 2 /\ w * (0.5 + 5 / 10) == w /\
     w * (0.5 + 10 / 10) == 1.5 * w) /\
  (forall (persona : string) (base ui : dict Q) (f : string) (w r : Q),
     Dict.get persona ScoreAndRank.PERSONA_WEIGHTS = Some base ->
     Dict.get f base = Some w ->
     Dict.get f ui = Some r ->
     Dict.get f (ScoreAndRank.scale_by_importance base ui) = Some (w * (r / 5)) /\
     w * (0 / 5) == 0 /\ w * (5 / 5) == w /\ w * (10 / 5) == 2 * w).
Proof.
  split.
  - intros persona uw f w r Hnd Hw Hr. split.
    + by apply scaled_weight_tools.
    + repeat split; field.
  - intros persona base ui f w r Hb Hw Hr. split.
    + by eapply scaled_weight_exec.
    + repeat split; field.
Qed.

Lemma prenormalization_weight_witness :
  Dict.get "safety"
    (ScoreAreas.apply_user_weights ScoreAreas.student_weights [("safety", 10)])
  = Some (0.15 * (0.5 + 10 / 10)) /\
  Dict.get "safety"
    (ScoreAndRank.scale_by_importance
       [ ("affordability", 35); ("commute", 25); ("safety", 15);
         ("amenities", 20); ("investment_quality", 5) ] [("safety", 10)])
  = Some (15 * (10 / 5)).
Proof.
  split.
  - apply (proj1 prenormalization_weight "student" [("safety", 10)] "safety" 0.15 10).
    + apply NoDup_ListNoDup. apply (bool_decide_unpack _). by vm_compute.
    + reflexivity.
    + reflexivity.
  - apply (proj2 prenormalization_weight "student"
             [ ("affordability", 35); ("commute", 25); ("safety", 15);
               ("amenities", 20); ("investment_quality", 5) ]
             [("safety", 10)] "safety" 15 10); reflexivity.
Defined.

(** C2 fails as stated on [execution/score_and_rank.py]: for the student's
    affordability weight 35, rating 0 gives 0 (not 35 * 0.5) and rating 10
    gives 70 (not 35 * 1.5). *)
Lemma prenormalization_counterexample :
  let base :=
    [ ("affordability", 35); ("commute", 25); ("safety", 15);
      ("amenities", 20); ("investment_quality", 5) ] in
  Dict.get "student" ScoreAndRank.PERSONA_WEIGHTS = Some base /\
  Dict.get "affordability" base = Some 35 /\
  (exists v, Dict.get "affordability"
               (ScoreAndRank.scale_by_importance base [("affordability", 0)])
             = Some v /\ v == 0 /\ ~ (v == 35 * (0.5 + 0 / 10))) /\
  (exists v, Dict.get "affordability"
               (ScoreAndRank.scale_by_importance base [("affordability", 10)])
             = Some v /\ v == 70 /\ ~ (v == 35 * (0.5 + 10 / 10))).
Proof.
  cbv zeta. repeat split; try reflexivity;
    eexists; (split; [reflexivity|]); split; by vm_compute.
Qed.

End WeightFacts.

(** ** Normalisation in [execution/score_and_rank.py] *)

Module NormalizeFacts.
Import ScoreAndRank Notions WeightFacts.

Lemma rating_default_in_range (ui : dict Q) (f : string) :
  Forall rating_in_range ui -> 0 <= Dict.get_or f 5 ui /\ Dict.get_or f 5 ui <= 10.
Proof.
  intros Hui. unfold Dict.get_or.
  destruct (Dict.get f ui) as [r|] eqn:E; simpl.
  - apply get_Some_In in E. rewrite Forall_forall in Hui.
    apply list_elem_of_In in E. exact (Hui _ E).
  - split; by vm_compute.
Qed.

Lemma scaled_values_nonneg (ui base : dict Q) :
  Forall rating_in_range ui ->
  Forall (fun fw => 0 <= snd fw) base ->
  Forall (fun v => 0 <= v) (Dict.values (map (scaled_entry ui) base)).
Proof.
  intros Hui. induction 1 as [|[f w] base Hw _ IH]; simpl; constructor; [|done].
  simpl in *. apply Qmult_le_0_compat; [done|].
  apply Qle_shift_div_l; [reflexivity|]. rewrite Qmult_0_l.
  by apply rating_default_in_range.
Qed.





End NormalizeFacts.

(** ** Lists: positions, sublists, slices *)

Section ListFacts.
Context {A : Type}.
Implicit Types (l : list A).

Lemma filter_sublist (f : A -> bool) l : List.filter f l `sublist_of` l.
Proof.
  induction l as [|x l IH]; simpl; [constructor|].
  destruct (f x); by constructor.
Qed.


Lemma map_sublist {B : Type} (f : A -> B) l1 l2 :
  l1 `sublist_of` l2 -> map f l1 `sublist_of` map f l2.
Proof. induction 1; simpl; by constructor. Qed.

Lemma lookup_pair_sublist l (i j : nat) (a b : A) :
  l !! i = Some a -> l !! j = Some b -> (i < j)%nat -> [a; b] `sublist_of` l.
Proof.
  revert i j. induction l as [|x l IH]; intros i j Hi Hj Hlt; [done|].
  destruct j as [|j]; [lia|]. simpl in Hj. destruct i as [|i]; simpl in Hi.
  - injection Hi as ->. apply sublist_skip. apply singleton_sublist_l.
    by eapply list_elem_of_lookup_2.
  - apply sublist_cons. eapply IH; [done..|lia].
Qed.

Lemma sorted_lookup (R : A -> A -> Prop) l (i j : nat) (a b : A) :
  StronglySorted R l ->
  l !! i = Some a -> l !! j = Some b -> (i < j)%nat -> R a b.
Proof.
  intros Hs. revert i j. induction Hs as [|x l Hs IH Hx]; intros i j Hi Hj Hlt.
  { done. }
  destruct j as [|j]; [lia|]. simpl in Hj. destruct i as [|i]; simpl in Hi.
  - injection Hi as ->. rewrite Forall_forall in Hx. apply Hx.
    by eapply list_elem_of_lookup_2.
  - eapply IH; [done..|lia].
Qed.

Lemma slice_to_take (n : Z) l : exists m, slice_to n l = take m l.
Proof. unfold slice_to. destruct (0 <=? n)%Z; eauto. Qed.

Lemma slice_to_lookup (n : Z) l (i : nat) (a : A) :
  slice_to n l !! i = Some a -> l !! i = Some a.
Proof.
  destruct (slice_to_take n l) as [m ->]. intros H.
  by apply lookup_take_Some in H as [? _].
Qed.


End ListFacts.

(** ** The scoring loop and the ranking of [execution/score_and_rank.py] *)

Module RankFacts.
Import ScoreAndRank Notions.

Lemma score_loop (persona : string) (p : preferences) (w : dict Q)
    (items : dict area) (scored : list candidate) (out : list filtered) :
  fold_left (score_step persona p w) items (scored, out)
  = (scored ++ map (scored_item persona w) (passing p items),
     out ++ map (rejected_item p) (rejected p items)).
Proof.
  revert scored out. induction items as [|[code a] items IH]; intros scored out.
  - simpl. by rewrite !app_nil_r.
  - simpl. unfold passing, rejected in *. simpl.
    destruct (passes_constraints a p); simpl; rewrite IH, <- app_assoc; done.
Qed.

Lemma score_and_rank_inv (persona : string) (p : preferences) (data : dict area)
    (n : Z) (out : output) :
  score_and_rank persona p data n = Ok out ->
  exists w,
    calculate_adjusted_weights persona (default [] (importance_weights p)) = Ok w /\
    out_adjusted_weights out = w /\
    recommendations out
    = imap (fun i c => set_rank (i + 1) c)
        (slice_to n (sort_desc composite_score
                       (map (scored_item persona w) (passing p data)))) /\
    filtered_out_count out = length (rejected p data) /\
    filtered_out_reasons out = slice_to 5 (map (rejected_item p) (rejected p data)).
Proof.
  unfold score_and_rank. destruct (negb (Dict.mem persona PERSONA_WEIGHTS)); [done|].
  destruct (calculate_adjusted_weights persona _) as [w|e]; [|done].
  rewrite score_loop. simpl. intros [= <-]. exists w. simpl.
  by rewrite length_map.
Qed.

Lemma scored_item_of (persona : string) (w : dict Q) (it : string * area) :
  item_of (scored_item persona w it) = it.
Proof.
  unfold scored_item, score_area, item_of.
  destruct (calculate_composite_score _ _). simpl. by destruct it.
Qed.


(** A recommendation at position [i] is a scored, passing input entry,
    found at position [i] of the sorted list, with rank [i + 1]. *)
Lemma recommendation_lookup (persona : string) (p : preferences)
    (data : dict area) (n : Z) (out : output) (i : nat) (c : candidate) :
  score_and_rank persona p data n = Ok out ->
  recommendations out !! i = Some c ->
  exists c0,
    sort_desc composite_score
      (map (scored_item persona (out_adjusted_weights out)) (passing p data)) !! i
    = Some c0 /\
    c = set_rank (i + 1) c0 /\
    In c0 (map (scored_item persona (out_adjusted_weights out)) (passing p data)).
Proof.
  intros Hout Hc. apply score_and_rank_inv in Hout as (w & _ & -> & Hrec & _).
  rewrite Hrec, list_lookup_imap in Hc.
  destruct (slice_to n _ !! i) as [c0|] eqn:E; [|done].
  apply slice_to_lookup in E. injection Hc as <-. exists c0.
  split; [done|]. split; [done|].
  apply list_elem_of_In. rewrite <- (sort_desc_perm composite_score).
  by eapply list_elem_of_lookup_2.
Qed.

(** Two recommendations in output order, with equal sort keys, were
    scored from input entries in the same order. *)
Lemma recommendations_stable (persona : string) (p : preferences)
    (data : dict area) (n : Z) (out : output) (i j : nat) (a b : candidate) :
  score_and_rank persona p data n = Ok out ->
  recommendations out !! i = Some a ->
  recommendations out !! j = Some b ->
  (i < j)%nat ->
  composite_score b <= composite_score a /\
  (composite_score a == composite_score b ->
   [item_of a; item_of b] `sublist_of` data).
Proof.
  intros Hout Ha Hb Hlt.
  destruct (recommendation_lookup _ _ _ _ _ _ _ Hout Ha) as (a0 & Ha0 & -> & _).
  destruct (recommendation_lookup _ _ _ _ _ _ _ Hout Hb) as (b0 & Hb0 & -> & _).
  simpl. split.
  - exact (sorted_lookup _ _ _ _ _ _ (sort_desc_sorted composite_score _) Ha0 Hb0 Hlt).
  - intros Heq.
    pose proof (lookup_pair_sublist _ _ _ _ _ Ha0 Hb0 Hlt) as Hsub.
    apply sort_desc_stable in Hsub; [|done].
    apply (map_sublist item_of) in Hsub. rewrite map_map in Hsub.
    rewrite (map_ext _ id) in Hsub by (intros; apply scored_item_of).
    rewrite map_id in Hsub. etrans; [exact Hsub|]. apply filter_sublist.
Qed.

End RankFacts.

(** ** The ranking of [tools/score_areas.py] *)

Module ToolsRankFacts.
Import ScoreAreas Notions.

Lemma build_recommendations_data (areas : list enriched_area) (persona : string)
    (uw : option (dict Q)) (recs : list recommendation) :
  build_recommendations areas persona uw = Ok recs ->
  map enrichment_data recs = map ea_data areas.
Proof.
  revert recs. induction areas as [|x areas IH]; intros recs; simpl.
  - by intros [= <-].
  - destruct (calculate_composite_score _ _ _) as [sd|]; [|done].
    destruct (build_recommendations areas persona uw) as [recs'|]; [|done].
    intros [= <-]. simpl. by rewrite (IH recs').
Qed.





End ToolsRankFacts.

(** ** Ranking, counting and ordering *)

Module RankingTheorems.
Import ScoreAndRank Notions Samples RankFacts.







(** C6: in the ranked output the rank fields are 1..N in list order; of
    two output candidates the one with the higher composite score has the
    smaller rank number; and two candidates with equal composite scores
    are ranked in the order of their entries in the input. *)
Theorem ranking_monotonic_stable (persona : string) (p : preferences)
    (data : dict area) (n : Z) (out : output) :
  score_and_rank persona p data n = Ok out ->
  (forall (i : nat) (c : candidate),
     recommendations out !! i = Some c -> rank c = Some (i + 1)%nat) /\
  (forall (a b : candidate) (ra rb : nat),
     In a (recommendations out) -> In b (recommendations out) ->
     rank a = Some ra -> rank b = Some rb ->
     (composite_score b < composite_score a -> (ra < rb)%nat) /\
     (composite_score a == composite_score b -> (ra < rb)%nat ->
      [item_of a; item_of b] `sublist_of` data)).
Proof.
  intros Hout.
  assert (Hrank : forall i c, recommendations out !! i = Some c ->
            rank c = Some (i + 1)%nat).
  { intros i c Hc.
    by destruct (recommendation_lookup _ _ _ _ _ _ _ Hout Hc) as (c0 & _ & -> & _). }
  split; [exact Hrank|].
  intros a b ra rb Ha Hb Hra Hrb.
  apply list_elem_of_In, list_elem_of_lookup_1 in Ha as [i Hi].
  apply list_elem_of_In, list_elem_of_lookup_1 in Hb as [j Hj].
  rewrite (Hrank _ _ Hi) in Hra. rewrite (Hrank _ _ Hj) in Hrb.
  injection Hra as <-. injection Hrb as <-. split.
  - intros Hlt. destruct (Nat.lt_trichotomy i j) as [Hij|[Hij|Hij]]; [lia| |].
    + subst j. rewrite Hi in Hj. injection Hj as ->. by apply Qlt_irrefl in Hlt.
    + destruct (recommendations_stable _ _ _ _ _ _ _ _ _ Hout Hj Hi Hij) as [Hle _].
      by apply Qlt_not_le in Hlt.
  - intros Heq Hlt.
    destruct (recommendations_stable _ _ _ _ _ i j _ _ Hout Hi Hj ltac:(lia))
      as [_ Hst]. by apply Hst.
Qed.

Lemma ranking_monotonic_stable_witness :
  exists out a b,
    score_and_rank "student" no_preferences two_areas 10%Z = Ok out /\
    recommendations out = [a; b] /\
    rank a = Some 1%nat /\ rank b = Some 2%nat /\
    [item_of a; item_of b] `sublist_of` two_areas.
Proof.
  eexists _, _, _. split; [by vm_compute|]. split; [reflexivity|].
  match goal with
  | |- rank ?a = _ /\ rank ?b = _ /\ _ =>
      destruct (ranking_monotonic_stable "student" no_preferences two_areas 10%Z
                  _ eq_refl) as [Hr Hs];
      split; [exact (Hr 0%nat a eq_refl)|];
      split; [exact (Hr 1%nat b eq_refl)|];
      apply (Hs a b 1%nat 2%nat)
  end; try reflexivity; try lia.
  - left. reflexivity.
  - right. left. reflexivity.
Defined.

End RankingTheorems.

(** ** The cache store *)

Module CacheFacts.
Import CacheManager Notions Samples.

Lemma timedelta_hours_in_range (h : Z) :
  (-23999999976 <= h <= 23999999999)%Z ->
  timedelta_hours (Hours h) = Ok (h * us_per_hour)%Z.
Proof.
  intros Hh. unfold timedelta_hours, us_per_hour, us_per_day.
  assert (-999999999 <= h * 3600000000 / 86400000000 <= 999999999)%Z as [H1 H2].
  { split.
    - apply Z.div_le_lower_bound; lia.
    - apply Z.lt_succ_r. apply Z.div_lt_upper_bound; lia. }
  apply Z.leb_le in H1, H2. by rewrite H1, H2.
Qed.

(** Reading right after a successful write reaches the freshness test
    with the stamp and the payload just written. *)
Lemma read_after_write (fs : store) (written now : Z) (cache_type key : string)
    (payload : json) (max_age_hours : option Z) :
  read_cache (snd (write_cache fs written IoOk cache_type key payload)) now
    cache_type key max_age_hours
  = match timedelta_hours (applicable_ttl cache_type max_age_hours) with
    | Raise e => Raise e
    | Ok max_age =>
        if (now - written >? max_age)%Z then Ok JNull else Ok payload
    end.
Proof.
  unfold read_cache, write_cache. simpl. by rewrite lookup_insert_eq.
Qed.

(** A write that reports success is one the disk carried out. *)
Lemma write_cache_success (fs : store) (now : Z) (io : io_outcome)
    (cache_type key : string) (payload : json) :
  fst (write_cache fs now io cache_type key payload) = true <-> io = IoOk.
Proof. unfold write_cache. by destruct io. Qed.

(** The round trip for every TTL that is a non-negative number of hours
    within the range of [timedelta]: a read at the instant of the write,
    or at any later instant within the TTL, returns the payload. *)
Lemma write_then_read_finite (fs : store) (written now : Z)
    (cache_type key : string) (payload : json) (max_age_hours : option Z) (h : Z) :
  applicable_ttl cache_type max_age_hours = Hours h ->
  (0 <= h <= 23999999999)%Z ->
  (written <= now <= written + h * us_per_hour)%Z ->
  read_cache (snd (write_cache fs written IoOk cache_type key payload)) now
    cache_type key max_age_hours = Ok payload.
Proof.
  intros Httl Hh Hnow. rewrite read_after_write, Httl.
  rewrite timedelta_hours_in_range by lia.
  destruct (now - written >? h * us_per_hour)%Z eqn:E; [|done].
  apply Z.gtb_lt in E. lia.
Qed.

(** Every category other than [video_url] has a finite TTL, and a read
    at the instant of a successful write returns the payload. *)
Lemma write_then_read_immediately (fs : store) (t : Z) (cache_type key : string)
    (payload : json) :
  cache_type <> "video_url" ->
  read_cache (snd (write_cache fs t IoOk cache_type key payload)) t
    cache_type key None = Ok payload.
Proof.
  intros Hne. rewrite read_after_write, Z.sub_diag.
  unfold applicable_ttl, Dict.get_or, CACHE_VALIDITY. simpl.
  repeat match goal with
         | |- context [String.eqb cache_type ?k] =>
             destruct (String.eqb_spec cache_type k) as [->|?]
         end; done.
Qed.

(** C7 at its failing input: in the category [video_url], whose TTL in
    the table is infinite, every successful write is followed by a read
    that raises [OverflowError] instead of returning the payload. *)
Theorem video_url_read_raises (fs : store) (written now : Z) (key : string)
    (payload : json) :
  fst (write_cache fs written IoOk "video_url" key payload) = true /\
  Dict.get "video_url" CACHE_VALIDITY = Some HoursInf /\
  read_cache (snd (write_cache fs written IoOk "video_url" key payload)) now
    "video_url" key None = Raise OverflowError.
Proof.
  split; [done|]. split; [done|]. by rewrite read_after_write.
Qed.

(** C8: an entry written at [T] under an applicable TTL of [H] hours (the
    category's, or the explicit [max_age_hours]) is returned at every
    instant whose age is at most [H] hours, and is a miss at every instant
    whose age exceeds [H] hours; in particular it is returned one second
    before [T + H] and missed one second after. *)
Theorem freshness_boundary (fs : store) (T now : Z) (cache_type key : string)
    (payload : json) (max_age_hours : option Z) (H : Z) :
  applicable_ttl cache_type max_age_hours = Hours H ->
  (-23999999976 <= H <= 23999999999)%Z ->
  let fs' := snd (write_cache fs T IoOk cache_type key payload) in
  ((now - T <= H * us_per_hour)%Z ->
   read_cache fs' now cache_type key max_age_hours = Ok payload) /\
  ((now - T > H * us_per_hour)%Z ->
   read_cache fs' now cache_type key max_age_hours = Ok JNull) /\
  read_cache fs' (T + H * us_per_hour - us_per_second) cache_type key max_age_hours
  = Ok payload /\
  read_cache fs' (T + H * us_per_hour + us_per_second) cache_type key max_age_hours
  = Ok JNull.
Proof.
  intros Httl HH fs'.
  assert (Hread : forall t,
            read_cache fs' t cache_type key max_age_hours
            = if (t - T >? H * us_per_hour)%Z then Ok JNull else Ok payload).
  { intros t. unfold fs'. rewrite read_after_write, Httl.
    by rewrite timedelta_hours_in_range. }
  rewrite !Hread. unfold us_per_second. repeat split.
  - intros Hage. destruct (now - T >? H * us_per_hour)%Z eqn:E; [|done].
    apply Z.gtb_lt in E. lia.
  - intros Hage. destruct (now - T >? H * us_per_hour)%Z eqn:E; [done|].
    rewrite Z.gtb_ltb in E. apply Z.ltb_ge in E. lia.
  - destruct (_ >? _)%Z eqn:E; [|done]. apply Z.gtb_lt in E. lia.
  - destruct (_ >? _)%Z eqn:E; [done|].
    rewrite Z.gtb_ltb in E. apply Z.ltb_ge in E. lia.
Qed.

Lemma freshness_boundary_witness :
  let fs' := snd (write_cache ∅ 0 IoOk "scansan_property" "E1 6AN" sample_payload) in
  read_cache fs' (24 * us_per_hour - us_per_second) "scansan_property" "E1 6AN" None
  = Ok sample_payload /\
  read_cache fs' (24 * us_per_hour + us_per_second) "scansan_property" "E1 6AN" None
  = Ok JNull.
Proof.
  destruct (freshness_boundary ∅ 0 0 "scansan_property" "E1 6AN" sample_payload
              None 24 eq_refl ltac:(lia)) as (_ & _ & H1 & H2).
  split; [exact H1|exact H2].
Defined.

End CacheFacts.

(** ** Unknown personas *)

Module PersonaFacts.
Import Notions Samples.

Lemma tools_table_unknown (persona : string) :
  Dict.get persona ScoreAndRank.PERSONA_WEIGHTS = None ->
  Dict.get persona ScoreAreas.PERSONA_WEIGHTS = None.
Proof.
  unfold ScoreAndRank.PERSONA_WEIGHTS, ScoreAreas.PERSONA_WEIGHTS. simpl.
  by repeat (match goal with
             | |- context [String.eqb ?a ?b] => destruct (String.eqb a b)
             end).
Qed.

(** C9 (as amended): for a persona name outside the known set,
    [score_and_rank] raises [ValueError] whatever the other arguments are,
    whereas [calculate_composite_score] and [rank_areas] of
    [tools/score_areas.py] proceed exactly as for the student persona. *)
Theorem unknown_persona (persona : string) :
  Dict.get persona ScoreAndRank.PERSONA_WEIGHTS = None ->
  (forall (p : ScoreAndRank.preferences) (data : dict ScoreAndRank.area) (n : Z),
     ScoreAndRank.score_and_rank persona p data n
     = Raise (ValueError ("Invalid persona: " +:+ persona))) /\
  (forall (data : dict (dict Q)) (uw : option (dict Q)),
     ScoreAreas.calculate_composite_score data persona uw
     = ScoreAreas.calculate_composite_score data "student" uw) /\
  (forall (areas : list ScoreAreas.enriched_area) (uw : option (dict Q)) (limit : Z),
     ScoreAreas.rank_areas areas persona uw limit
     = ScoreAreas.rank_areas areas "student" uw limit).
Proof.
  intros Hp. pose proof (tools_table_unknown _ Hp) as Ht.
  assert (Hw : forall uw, ScoreAreas.resolve_weights persona uw
                          = ScoreAreas.resolve_weights "student" uw).
  { intros uw. unfold ScoreAreas.resolve_weights, Dict.get_or. by rewrite Ht. }
  assert (Hc : forall data uw,
            ScoreAreas.calculate_composite_score data persona uw
            = ScoreAreas.calculate_composite_score data "student" uw).
  { intros data uw. unfold ScoreAreas.calculate_composite_score. by rewrite Hw. }
  split; [|split; [exact Hc|]].
  - intros p data n. unfold ScoreAndRank.score_and_rank, Dict.mem. by rewrite Hp.
  - intros areas uw limit. unfold ScoreAreas.rank_areas.
    replace (ScoreAreas.build_recommendations areas persona uw)
      with (ScoreAreas.build_recommendations areas "student" uw); [done|].
    induction areas as [|x areas IH]; simpl; [done|]. by rewrite Hc, IH.
Qed.

Lemma unknown_persona_witness :
  ScoreAndRank.score_and_rank "retiree" no_preferences two_areas 10%Z
  = Raise (ValueError "Invalid persona: retiree") /\
  ScoreAreas.rank_areas two_enriched_areas "retiree" None 10%Z
  = ScoreAreas.rank_areas two_enriched_areas "student" None 10%Z.
Proof.
  destruct (unknown_persona "retiree" eq_refl) as (H1 & _ & H3).
  split; [apply H1|apply H3].
Defined.

(** C9 fails as stated on [tools/score_areas.py]: the unknown persona
    ["retiree"] is scored, with the student weights, and ranked. *)
Lemma unknown_persona_counterexample :
  Dict.get "retiree" ScoreAreas.PERSONA_WEIGHTS = None /\
  (exists sd,
     ScoreAreas.calculate_composite_score
       [("scansan", [("affordability_score", 80)])] "retiree" None = Ok sd /\
     ScoreAreas.sd_weights_applied sd = ScoreAreas.student_weights /\
     ScoreAreas.sd_composite_score sd == 60.5) /\
  (exists recs,
     ScoreAreas.rank_areas two_enriched_areas "retiree" None 10%Z = Ok recs /\
     map ScoreAreas.rank recs = [1%nat; 2%nat]).
Proof.
  split; [reflexivity|]. split; eexists; (split; [by vm_compute|]).
  - split; by vm_compute.
  - by vm_compute.
Qed.

End PersonaFacts.

(** ** The extractor *)

Module ExtractorFacts.
Import ScoreAndRank.

(** C10: when the property-intelligence sub-record is present, the four
    factors read from it are always defined, each with the field's value
    or 50 when the field is missing; when the sub-record is absent, none
    of the four factors is defined. *)
Theorem scansan_field_defaults (area_data : area) (persona : string) :
  let scores := calculate_factor_scores area_data persona in
  match Dict.get "scansan" area_data with
  | Some ss =>
      Dict.get "affordability" scores
      = Some (default 50 (Dict.get "affordability_score" ss)) /\
      Dict.get "investment_quality" scores
      = Some (default 50 (Dict.get "investment_quality" ss)) /\
      Dict.get "demand_index" scores
      = Some (default 50 (Dict.get "demand_index" ss)) /\
      Dict.get "risk_score" scores
      = Some (default 50 (Dict.get "risk_score" ss))
  | None =>
      Dict.get "affordability" scores = None /\
      Dict.get "investment_quality" scores = None /\
      Dict.get "demand_index" scores = None /\
      Dict.get "risk_score" scores = None
  end.
Proof.
  unfold calculate_factor_scores, put_field. cbv zeta.
  destruct (Dict.get "scansan" area_data) as [ss|];
    destruct (Dict.get "commute" area_data);
    destruct (Dict.get "crime" area_data);
    destruct (Dict.get "schools" area_data);
    destruct (Dict.get "amenities" area_data);
    destruct (Dict.get "infrastructure" area_data);
    repeat split; reflexivity.
Qed.

End ExtractorFacts.

(** * Further properties of the code *)

From Stdlib Require Import Lqa.

(** ** Factor scores and composite of [execution/score_and_rank.py] *)

Module ScoringFacts.
Import ScoreAndRank Notions MoreNotions Samples.

Lemma commute_score_lookup (area_data : area) (persona : string) :
  Dict.get "commute" (calculate_factor_scores area_data persona)
  = (fun c => Qmax 0 (Qmin 100 (100 - (Dict.get_or "duration_minutes" 60 c / 60 * 100))))
      <$> Dict.get "commute" area_data.
Proof.
  unfold calculate_factor_scores, put_field. cbv zeta.
  destruct (Dict.get "scansan" area_data);
    destruct (Dict.get "commute" area_data);
    destruct (Dict.get "crime" area_data);
    destruct (Dict.get "schools" area_data);
    destruct (Dict.get "amenities" area_data);
    destruct (Dict.get "infrastructure" area_data); reflexivity.
Qed.

(** The commute score of an area that has a commute sub-record lies in
    [0, 100]; it is 100 for a duration of 0 minutes or less, 0 for 60
    minutes or more, and 0 when the duration field is missing. *)
Theorem commute_score_bounds (area_data : area) (persona : string) (c : subrecord) :
  Dict.get "commute" area_data = Some c ->
  exists s,
    Dict.get "commute" (calculate_factor_scores area_data persona) = Some s /\
    0 <= s /\ s <= 100 /\
    (Dict.get_or "duration_minutes" 60 c <= 0 -> s == 100) /\
    (60 <= Dict.get_or "duration_minutes" 60 c -> s == 0) /\
    (Dict.get "duration_minutes" c = None -> s == 0).
Proof.
  intros Hc. rewrite commute_score_lookup, Hc. simpl. eexists. split; [reflexivity|].
  set (d := Dict.get_or "duration_minutes" 60 c).
  assert (Hmissing : Dict.get "duration_minutes" c = None -> d == 60).
  { intros Hnone. unfold d, Dict.get_or. by rewrite Hnone. }
  assert (Hx : d / 60 * 100 == d * (5 # 3)) by field.
  destruct (Q.max_spec 0 (Qmin 100 (100 - d / 60 * 100))) as [[H1 H4]|[H1 H4]];
    destruct (Q.min_spec 100 (100 - d / 60 * 100)) as [[H2 H3]|[H2 H3]];
    rewrite H4; rewrite ?H3 in *; rewrite ?Hx in *; repeat split; intros;
    try (pose proof (Hmissing ltac:(assumption))); lra.
Qed.

Lemma commute_score_bounds_witness :
  exists s,
    Dict.get "commute" (calculate_factor_scores area_a "student") = Some s /\
    0 <= s /\ s <= 100.
Proof.
  destruct (commute_score_bounds area_a "student" [("duration_minutes", 30)] eq_refl)
    as (s & H1 & H2 & H3 & _).
  by exists s.
Defined.

Lemma Qsum_le_pointwise {A : Type} (f g : A -> Q) (l : list A) :
  (forall x, In x l -> f x <= g x) -> Qsum (map f l) <= Qsum (map g l).
Proof.
  induction l as [|x l IH]; intros H; simpl; [apply Qle_refl|].
  rewrite !Qsum_cons. apply Qplus_le_compat; [apply H; by left|].
  apply IH. intros y Hy. apply H. by right.
Qed.

Lemma contribution_bounds (scores : dict Q) (fw : string * Q) :
  Forall score_in_range scores -> 0 <= snd fw ->
  0 <= contribution_of scores fw /\ contribution_of scores fw <= snd fw.
Proof.
  intros Hs Hw. unfold contribution_of.
  destruct (Dict.get (fst fw) scores) as [s|] eqn:E; [|split; lra].
  apply get_Some_In, list_elem_of_In in E. rewrite Forall_forall in Hs.
  destruct (Hs _ E) as [H0 H100]. simpl in *.
  assert (s * snd fw / 100 == s * snd fw * (1 # 100)) as -> by field.
  split; nra.
Qed.

(** With every factor score in [0, 100] and non-negative weights the
    composite lies between 0 and the total weight, hence in [0, 100] for
    weights that sum to 100. *)
Theorem composite_bounded (scores weights : dict Q) :
  Forall score_in_range scores ->
  Forall (fun fw => 0 <= snd fw) weights ->
  0 <= fst (calculate_composite_score scores weights) /\
  fst (calculate_composite_score scores weights) <= Qsum (Dict.values weights) /\
  (Qsum (Dict.values weights) == 100 ->
   fst (calculate_composite_score scores weights) <= 100).
Proof.
  intros Hs Hw. unfold calculate_composite_score.
  assert (Hc : fst (fold_left (composite_step scores) weights (0, []))
               == Qsum (map (contribution_of scores) weights)).
  { rewrite CompositeFacts.composite_fold. ring. }
  rewrite Forall_forall in Hw.
  assert (Hup : Qsum (map (contribution_of scores) weights) <= Qsum (Dict.values weights)).
  { apply Qsum_le_pointwise. intros fw Hin.
    apply contribution_bounds; [done|]. apply Hw. by apply list_elem_of_In. }
  rewrite Hc. split; [|split; [done|]].
  - apply Qsum_nonneg. apply Forall_forall. intros x Hx.
    apply list_elem_of_In, in_map_iff in Hx as (fw & <- & Hin).
    apply contribution_bounds; [done|]. apply Hw. by apply list_elem_of_In.
  - intros H100. by rewrite <- H100.
Qed.

Lemma composite_bounded_witness :
  0 <= fst (calculate_composite_score (calculate_factor_scores area_a "student")
              [ ("affordability", 35); ("commute", 25); ("safety", 15);
                ("amenities", 20); ("investment_quality", 5) ]) /\
  fst (calculate_composite_score (calculate_factor_scores area_a "student")
         [ ("affordability", 35); ("commute", 25); ("safety", 15);
           ("amenities", 20); ("investment_quality", 5) ]) <= 100.
Proof.
  destruct (composite_bounded (calculate_factor_scores area_a "student")
              [ ("affordability", 35); ("commute", 25); ("safety", 15);
                ("amenities", 20); ("investment_quality", 5) ]) as (H1 & _ & H3).
  - repeat constructor; by vm_compute.
  - repeat constructor; by vm_compute.
  - split; [exact H1|]. apply H3. by vm_compute.
Defined.

Lemma contributions_fold_map (scores weights : dict Q) (c : Q) (contribs : dict Q) :
  List.NoDup (Dict.keys (contribs ++ weights)) ->
  snd (fold_left (composite_step scores) weights (c, contribs))
  = contribs ++ map (fun fw => (fst fw, contribution_of scores fw)) weights.
Proof.
  revert c contribs. induction weights as [|[f w] ws IH]; intros c contribs Hnd; simpl.
  - by rewrite app_nil_r.
  - assert (Hf : ~ In f (Dict.keys contribs)).
    { unfold Dict.keys in Hnd. rewrite map_app in Hnd. simpl in Hnd.
      apply NoDup_remove_2 in Hnd. intros Hin. apply Hnd. apply in_or_app. by left. }
    assert (Hnd' : forall v, List.NoDup (Dict.keys ((contribs ++ [(f, v)]) ++ ws))).
    { intros v. unfold Dict.keys in *. rewrite !map_app in *. simpl in *.
      by rewrite <- app_assoc. }
    change (contribution_of scores (f, w))
      with (match Dict.get f scores with Some s => (s * w) / 100 | None => 0 end).
    destruct (Dict.get f scores) as [s|]; rewrite WeightFacts.set_fresh by done;
      rewrite IH by done; by rewrite <- app_assoc.
Qed.

(** For a weight map (distinct factors) the contributions have one entry
    per weighted factor, in the order of the weights, and they add up to
    the composite. *)
Theorem contributions_sum_to_composite (scores weights : dict Q) :
  List.NoDup (Dict.keys weights) ->
  Dict.keys (snd (calculate_composite_score scores weights)) = Dict.keys weights /\
  Qsum (Dict.values (snd (calculate_composite_score scores weights)))
  == fst (calculate_composite_score scores weights).
Proof.
  intros Hnd. unfold calculate_composite_score.
  rewrite contributions_fold_map by done. simpl. split.
  - unfold Dict.keys. by rewrite map_map.
  - rewrite CompositeFacts.composite_fold, Qplus_0_l.
    unfold Dict.values. rewrite map_map. reflexivity.
Qed.

Lemma contributions_sum_to_composite_witness :
  Qsum (Dict.values (snd (calculate_composite_score
                            (calculate_factor_scores area_a "student")
                            [ ("affordability", 35); ("commute", 25); ("safety", 15);
                              ("amenities", 20); ("investment_quality", 5) ])))
  == fst (calculate_composite_score
            (calculate_factor_scores area_a "student")
            [ ("affordability", 35); ("commute", 25); ("safety", 15);
              ("amenities", 20); ("investment_quality", 5) ]).
Proof.
  apply (contributions_sum_to_composite (calculate_factor_scores area_a "student")
           [ ("affordability", 35); ("commute", 25); ("safety", 15);
             ("amenities", 20); ("investment_quality", 5) ]).
  apply NoDup_ListNoDup. apply (bool_decide_unpack _). by vm_compute.
Defined.

End ScoringFacts.

(** ** More on the weight resolver of [execution/score_and_rank.py] *)

Module ResolverFacts.
Import ScoreAndRank Notions MoreNotions Samples WeightFacts NormalizeFacts.

Lemma keys_map_scaled (ui base : dict Q) :
  Dict.keys (map (scaled_entry ui) base) = Dict.keys base.
Proof. unfold Dict.keys. by rewrite map_map. Qed.

Lemma keys_map_values {V W : Type} (f : V -> W) (d : dict V) :
  Dict.keys (Dict.map_values f d) = Dict.keys d.
Proof. unfold Dict.keys, Dict.map_values. by rewrite map_map. Qed.

(** For every known persona and every rating map the resolver returns a
    weight map over exactly the persona's factors, in the order of the base
    table; ratings for other factors change nothing in that list.  For
    ratings in [0,10] no weight is negative. *)
Theorem adjusted_weights_shape (persona : string) (base ui : dict Q) :
  Dict.get persona PERSONA_WEIGHTS = Some base ->
  exists w, calculate_adjusted_weights persona ui = Ok w /\
    Dict.keys w = Dict.keys base /\
    (Forall rating_in_range ui -> Forall (fun fw => 0 <= snd fw) w).
Proof.
  intros Hb. destruct (base_weights_wf _ _ Hb) as (Hnd & Hpos & Hsum).
  unfold calculate_adjusted_weights. rewrite Hb.
  destruct ui as [|kr ui']; [by exists base|].
  set (ui := kr :: ui'). rewrite (scale_by_importance_map ui base Hnd).
  assert (Hsc : Forall rating_in_range ui ->
            Forall (fun fw => 0 <= snd fw) (map (scaled_entry ui) base)).
  { intros Hui. pose proof (scaled_values_nonneg ui base Hui Hpos) as H.
    unfold Dict.values in H. by rewrite Forall_map in H. }
  destruct (Qltb 0 _) eqn:E; eexists; (split; [reflexivity|]).
  - apply Qltb_lt in E. split.
    + unfold normalize_to_100. by rewrite keys_map_values, keys_map_scaled.
    + intros Hui. specialize (Hsc Hui). unfold normalize_to_100, Dict.map_values.
      rewrite Forall_map. eapply Forall_impl; [exact Hsc|]. simpl. intros fw Hfw.
      apply Qmult_le_0_compat; [|lra]. apply Qle_shift_div_l; [done|]. lra.
  - split; [apply keys_map_scaled|done].
Qed.

Lemma adjusted_weights_shape_witness :
  exists w, calculate_adjusted_weights "parent" [("schools", 10); ("nightlife", 3)] = Ok w /\
    Dict.keys w = ["affordability"; "schools"; "safety"; "commute"; "amenities"] /\
    Forall (fun fw => 0 <= snd fw) w.
Proof.
  destruct (adjusted_weights_shape "parent"
              [ ("affordability", 20); ("schools", 30); ("safety", 25);
                ("commute", 15); ("amenities", 10) ]
              [("schools", 10); ("nightlife", 3)] eq_refl) as (w & H1 & H2 & H3).
  exists w. split; [exact H1|]. split; [exact H2|]. apply H3.
  repeat constructor; by vm_compute.
Defined.

Lemma Forall2_diag {A : Type} (R : A -> A -> Prop) (l : list A) :
  (forall x, R x x) -> Forall2 R l l.
Proof. intros HR. induction l; by constructor. Qed.

Lemma normalize_neutral (ui l : dict Q) (total : Q) :
  total == 100 ->
  (forall fw, In fw l -> Dict.get_or (fst fw) 5 ui == 5) ->
  Forall2 (fun a b => fst a = fst b /\ snd a == snd b)
    (normalize_to_100 total (map (scaled_entry ui) l)) l.
Proof.
  intros Ht. induction l as [|[f w] l IH]; intros H; simpl; constructor.
  - simpl. split; [done|]. rewrite Ht, (H (f, w)) by (by left). by field.
  - apply IH. intros fw Hin. apply H. by right.
Qed.

(** When every factor of the persona is rated 5, explicitly or by the
    default for an unrated factor, the resolved weights are the base
    weights, factor by factor; in particular ratings given only to factors
    the persona does not weigh leave the weights unchanged. *)
Theorem neutral_ratings_keep_weights (persona : string) (base ui : dict Q) :
  Dict.get persona PERSONA_WEIGHTS = Some base ->
  (forall fw, In fw base -> Dict.get_or (fst fw) 5 ui == 5) ->
  exists w, calculate_adjusted_weights persona ui = Ok w /\
    Forall2 (fun a b => fst a = fst b /\ snd a == snd b) w base.
Proof.
  intros Hb Hn. destruct (base_weights_wf _ _ Hb) as (Hnd & Hpos & Hsum).
  unfold calculate_adjusted_weights. rewrite Hb.
  destruct ui as [|kr ui'].
  { exists base. split; [done|]. apply Forall2_diag. by intros [f w]. }
  set (ui := kr :: ui') in *. rewrite (scale_by_importance_map ui base Hnd).
  assert (Ht : Qsum (Dict.values (map (scaled_entry ui) base)) == 100).
  { rewrite <- Hsum. unfold Dict.values. rewrite map_map.
    apply Qsum_map_ext. intros fw Hin. simpl. rewrite (Hn fw Hin). by field. }
  assert (E : Qltb 0 (Qsum (Dict.values (map (scaled_entry ui) base))) = true).
  { apply Qltb_lt. rewrite Ht. reflexivity. }
  rewrite E. eexists. split; [reflexivity|]. by apply normalize_neutral.
Qed.

Lemma neutral_ratings_keep_weights_witness :
  exists w, calculate_adjusted_weights "student" [("schools", 9); ("safety", 5)] = Ok w /\
    Forall2 (fun a b => fst a = fst b /\ snd a == snd b) w
      [ ("affordability", 35); ("commute", 25); ("safety", 15);
        ("amenities", 20); ("investment_quality", 5) ].
Proof.
  apply (neutral_ratings_keep_weights "student"
           [ ("affordability", 35); ("commute", 25); ("safety", 15);
             ("amenities", 20); ("investment_quality", 5) ]
           [("schools", 9); ("safety", 5)] eq_refl).
  intros fw [<-|[<-|[<-|[<-|[<-|[]]]]]]; by vm_compute.
Defined.

End ResolverFacts.

(** ** More on [score_and_rank] *)

Module EngineFacts.
Import ScoreAndRank Notions MoreNotions Samples RankFacts.

(** [score_and_rank] returns a result exactly for the personas of the
    table: for a known persona no choice of preferences, data or [top_n]
    makes it raise. *)
Theorem score_and_rank_succeeds_iff (persona : string) (p : preferences)
    (data : dict area) (n : Z) :
  (exists out, score_and_rank persona p data n = Ok out) <->
  Dict.mem persona PERSONA_WEIGHTS = true.
Proof.
  unfold score_and_rank. split.
  - intros [out H]. by destruct (Dict.mem persona PERSONA_WEIGHTS).
  - intros Hm. rewrite Hm. simpl. unfold Dict.mem in Hm.
    destruct (Dict.get persona PERSONA_WEIGHTS) as [base|] eqn:Hb; [|done].
    destruct (ResolverFacts.adjusted_weights_shape persona base
                (default [] (importance_weights p)) Hb) as (w & -> & _).
    rewrite score_loop. by eexists.
Qed.

(** Every recommendation was scored from an input entry that passes the
    hard constraints, and every retained filter record names an input
    entry that fails them, with the reason computed for that entry. *)
Theorem recommendations_pass_constraints (persona : string) (p : preferences)
    (data : dict area) (n : Z) (out : output) :
  score_and_rank persona p data n = Ok out ->
  (forall c, In c (recommendations out) ->
     In (item_of c) data /\ passes_constraints (raw_data c) p = true) /\
  (forall r, In r (filtered_out_reasons out) ->
     exists a, In (f_area_code r, a) data /\ passes_constraints a p = false /\
               f_reason r = get_filter_reason a p).
Proof.
  intros Hout. split.
  - intros c Hc. apply list_elem_of_In, list_elem_of_lookup_1 in Hc as [i Hi].
    destruct (recommendation_lookup _ _ _ _ _ _ _ Hout Hi) as (c0 & _ & -> & Hin).
    apply in_map_iff in Hin as (it & <- & Hin).
    change (item_of (set_rank (i + 1) (scored_item persona (out_adjusted_weights out) it)))
      with (item_of (scored_item persona (out_adjusted_weights out) it)).
    change (raw_data (set_rank (i + 1) (scored_item persona (out_adjusted_weights out) it)))
      with (snd (item_of (scored_item persona (out_adjusted_weights out) it))).
    rewrite scored_item_of. unfold passing in Hin.
    by apply filter_In in Hin.
  - intros r Hr. apply score_and_rank_inv in Hout as (w & _ & _ & _ & _ & Hrs).
    rewrite Hrs in Hr. apply list_elem_of_In, list_elem_of_lookup_1 in Hr as [i Hi].
    apply slice_to_lookup in Hi. apply list_elem_of_lookup_2, list_elem_of_In in Hi.
    apply in_map_iff in Hi as ([code a] & <- & Hin). unfold rejected in Hin.
    apply filter_In in Hin as [Hin Hf]. exists a. simpl in *.
    split; [done|]. split; [by apply negb_true_iff|done].
Qed.

Lemma recommendations_pass_constraints_witness :
  exists out,
    score_and_rank "student" no_preferences two_areas 10%Z = Ok out /\
    forall c, In c (recommendations out) ->
      In (item_of c) two_areas /\ passes_constraints (raw_data c) no_preferences = true.
Proof.
  eexists. split; [by vm_compute|].
  apply (recommendations_pass_constraints "student" no_preferences two_areas 10%Z).
  reflexivity.
Defined.

(** A specific reason is never given to an area that passes: "over
    budget" and "commute too long" report the violated limit and a field
    value above it, and the area fails the constraints. *)
Theorem filter_reason_sound (a : area) (p : preferences) :
  (forall price b, get_filter_reason a p = OverBudget price b ->
     budget_max p = Some b /\ b < price /\ passes_constraints a p = false) /\
  (forall d m, get_filter_reason a p = CommuteTooLong d m ->
     max_commute_minutes p = Some m /\ m < d /\ passes_constraints a p = false).
Proof.
  unfold get_filter_reason, passes_constraints, Dict.get_or. split.
  - intros price b.
    destruct (budget_max p) as [bmax|]; destruct (Dict.get "scansan" a) as [ss|];
      try destruct (Dict.get "avg_price" ss) as [v|]; simpl;
      repeat match goal with
             | |- context [if Qltb ?x ?y then _ else _] => destruct (Qltb x y) eqn:?
             | |- context [match max_commute_minutes p with _ => _ end] =>
                 destruct (max_commute_minutes p)
             | |- context [match Dict.get "commute" a with _ => _ end] =>
                 destruct (Dict.get "commute" a)
             end; try discriminate;
      intros [= <- <-]; repeat split; try done; by apply Qltb_lt.
  - intros d m.
    destruct (max_commute_minutes p) as [cmax|];
      destruct (Dict.get "commute" a) as [c|];
      try destruct (Dict.get "duration_minutes" c) as [v|]; simpl;
      destruct (budget_max p) as [bmax|]; destruct (Dict.get "scansan" a) as [ss|];
      try destruct (Dict.get "avg_price" ss) as [v'|]; simpl;
      repeat match goal with
             | |- context [if Qltb ?x ?y then _ else _] => destruct (Qltb x y) eqn:?
             end; try discriminate;
      intros [= <- <-]; repeat split; try done; by apply Qltb_lt.
Qed.

Lemma filter_reason_sound_witness :
  let a : area := [("scansan", [("avg_price", 1500)])] in
  let p := {| budget_max := Some 1200; max_commute_minutes := None;
              min_safety_score := None; min_school_rating := None;
              importance_weights := None |} in
  get_filter_reason a p = OverBudget 1500 1200 /\ passes_constraints a p = false.
Proof.
  cbv zeta. split; [reflexivity|].
  eapply (proj1 (filter_reason_sound _ _) 1500 1200). reflexivity.
Defined.

(** An area whose property sub-record has no [avg_price] fails every
    budget ceiling, and for a ceiling of 0 or more the reason recorded for
    it is never "over budget". *)
Theorem missing_price_is_rejected (a : area) (p : preferences) (b : Q)
    (ss : subrecord) :
  budget_max p = Some b ->
  Dict.get "scansan" a = Some ss ->
  Dict.get "avg_price" ss = None ->
  passes_constraints a p = false /\
  (0 <= b -> forall price b', get_filter_reason a p <> OverBudget price b').
Proof.
  intros Hb Hss Hp. unfold passes_constraints, get_filter_reason, Dict.get_or.
  rewrite Hb, Hss, Hp. simpl. split; [done|]. intros H0 price b'.
  assert (E : Qltb b 0 = false) by (by apply Qltb_ge). rewrite E.
  destruct (max_commute_minutes p) as [cmax|]; [|done].
  destruct (Dict.get "commute" a) as [c|]; [|done].
  by destruct (Qltb cmax _).
Qed.

Lemma missing_price_is_rejected_witness :
  let a : area := [("scansan", [("affordability_score", 90)])] in
  let p := {| budget_max := Some 1200; max_commute_minutes := None;
              min_safety_score := None; min_school_rating := None;
              importance_weights := None |} in
  passes_constraints a p = false /\ get_filter_reason a p = DidNotMeetConstraints.
Proof.
  cbv zeta. split; [|reflexivity].
  eapply (missing_price_is_rejected _ _ 1200); reflexivity.
Defined.

End EngineFacts.

(** ** Truncation by [top_n] *)

Module TruncationFacts.
Import ScoreAndRank Notions MoreNotions Samples RankFacts.

Lemma map_item_of_imap (f : nat -> candidate -> candidate) (l : list candidate) :
  (forall i c, item_of (f i c) = item_of c) ->
  map item_of (imap f l) = map item_of l.
Proof.
  revert f. induction l as [|x l IH]; intros f Hf; simpl; [done|].
  rewrite Hf, IH; [done|]. intros i c. apply Hf.
Qed.

(** A negative [top_n] is a Python slice bound: the last [-top_n] of the
    sorted candidates are dropped, and nothing is left when there are no
    more than that. *)
Theorem negative_top_n_drops_tail (persona : string) (p : preferences)
    (data : dict area) (n : Z) (out : output) :
  score_and_rank persona p data n = Ok out ->
  (n < 0)%Z ->
  length (recommendations out)
  = (length (passing p data) - Z.to_nat (- n))%nat.
Proof.
  intros Hout Hn. apply score_and_rank_inv in Hout as (w & _ & _ & Hrec & _).
  rewrite Hrec, length_imap. unfold slice_to.
  assert (E : (0 <=? n)%Z = false) by (apply Z.leb_gt; lia). rewrite E.
  rewrite length_take, sort_desc_length, length_map. lia.
Qed.

Lemma negative_top_n_drops_tail_witness :
  exists out,
    score_and_rank "student" no_preferences eleven_areas (-4)%Z = Ok out /\
    length (recommendations out) = 7%nat.
Proof.
  eexists. split; [by vm_compute|].
  apply (negative_top_n_drops_tail "student" no_preferences eleven_areas (-4)%Z);
    [reflexivity|lia].
Defined.

(** When [top_n] is at least the number of passing areas, the
    recommendations are the passing input entries, each exactly once, in
    ranked order. *)
Theorem all_passing_recommended (persona : string) (p : preferences)
    (data : dict area) (n : Z) (out : output) :
  score_and_rank persona p data n = Ok out ->
  (Z.of_nat (length (passing p data)) <= n)%Z ->
  map item_of (recommendations out) ≡ₚ passing p data.
Proof.
  intros Hout Hn. apply score_and_rank_inv in Hout as (w & _ & _ & Hrec & _).
  rewrite Hrec, map_item_of_imap by done. unfold slice_to.
  assert (E : (0 <=? n)%Z = true) by (apply Z.leb_le; lia). rewrite E.
  rewrite take_ge by (rewrite sort_desc_length, length_map; lia).
  rewrite (sort_desc_perm composite_score), map_map.
  rewrite (map_ext _ id) by (intros; apply scored_item_of). by rewrite map_id.
Qed.

Lemma all_passing_recommended_witness :
  exists out,
    score_and_rank "student" no_preferences two_areas 10%Z = Ok out /\
    map item_of (recommendations out) ≡ₚ passing no_preferences two_areas.
Proof.
  eexists. split; [by vm_compute|].
  apply (all_passing_recommended "student" no_preferences two_areas 10%Z);
    [reflexivity|by vm_compute].
Defined.

End TruncationFacts.

(** ** Strengths, weaknesses and trade-offs *)

Module AnnotationFacts.
Import ScoreAndRank Annotations Notions MoreNotions Samples RankFacts.

Lemma dict_value_unique {V : Type} (d : dict V) (k : string) (v1 v2 : V) :
  List.NoDup (Dict.keys d) -> In (k, v1) d -> In (k, v2) d -> v1 = v2.
Proof.
  induction d as [|[k' v'] d IH]; simpl; [done|].
  intros Hnd H1 H2. apply List.NoDup_cons_iff in Hnd as [Hk Hnd].
  destruct H1 as [H1|H1], H2 as [H2|H2].
  - congruence.
  - exfalso. apply Hk. injection H1 as -> ->. by apply (in_map fst) in H2.
  - exfalso. apply Hk. injection H2 as -> ->. by apply (in_map fst) in H1.
  - by apply IH.
Qed.

Lemma sorted_scores_In (scores : dict Q) (e : string * Q) :
  In e (sorted_scores scores) <-> In e scores.
Proof.
  unfold sorted_scores. rewrite <- !list_elem_of_In.
  by rewrite (sort_desc_perm snd).
Qed.

Lemma strength_entry_spec (scores : dict Q) (e : string * Q) :
  In e (strength_entries scores) -> In e scores /\ 80 <= snd e.
Proof.
  unfold strength_entries. intros H. apply filter_In in H as [Hin Hs]. split.
  - apply sorted_scores_In.
    rewrite <- (firstn_skipn 3 (sorted_scores scores)). apply in_or_app. by left.
  - by apply Qle_bool_iff.
Qed.

Lemma weakness_entry_spec (scores : dict Q) (e : string * Q) :
  In e (weakness_entries scores) -> In e scores /\ snd e < 60.
Proof.
  unfold weakness_entries, last_two. intros H. apply filter_In in H as [Hin Hs]. split.
  - apply sorted_scores_In. apply in_rev in Hin.
    rewrite <- (firstn_skipn (length (sorted_scores scores) - 2) (sorted_scores scores)).
    apply in_or_app. by right.
  - by apply Qltb_lt.
Qed.

(** At most three strengths and two weaknesses are reported; a strength
    is a factor of the area with a score of at least 80, a weakness one
    with a score below 60, so no factor is both; and as soon as some factor
    scores at least 80, at least one strength is reported. *)
Theorem strengths_weaknesses_bounds (scores : dict Q) (persona : string) :
  (length (fst (identify_strengths_weaknesses scores persona)) <= 3)%nat /\
  (length (snd (identify_strengths_weaknesses scores persona)) <= 2)%nat /\
  (forall e, In e (strength_entries scores) -> In e scores /\ 80 <= snd e) /\
  (forall e, In e (weakness_entries scores) -> In e scores /\ snd e < 60) /\
  (List.NoDup (Dict.keys scores) ->
   forall e1 e2, In e1 (strength_entries scores) -> In e2 (weakness_entries scores) ->
                 fst e1 <> fst e2) /\
  ((exists e, In e scores /\ 80 <= snd e) ->
   fst (identify_strengths_weaknesses scores persona) <> []).
Proof.
  split; [|split; [|split; [|split; [|split]]]].
  - simpl. rewrite length_map. unfold strength_entries.
    etrans; [apply filter_length_le|]. rewrite length_take. lia.
  - simpl. rewrite length_map. unfold weakness_entries, last_two.
    etrans; [apply filter_length_le|]. rewrite length_rev, length_drop. lia.
  - apply strength_entry_spec.
  - apply weakness_entry_spec.
  - intros Hnd [f1 s1] [f2 s2] H1 H2 Heq. simpl in Heq. subst f2.
    apply strength_entry_spec in H1 as [H1 Hs1].
    apply weakness_entry_spec in H2 as [H2 Hs2].
    rewrite (dict_value_unique _ _ _ _ Hnd H1 H2) in Hs1. simpl in *. lra.
  - intros (e & He & Hs). simpl.
    pose proof (sort_desc_sorted snd scores) as Hsorted.
    apply sorted_scores_In in He. unfold strength_entries.
    fold (sorted_scores scores) in Hsorted.
    destruct (sorted_scores scores) as [|x l]; [done|].
    assert (Hx : 80 <= snd x).
    { destruct He as [->|He]; [done|]. inversion Hsorted as [|? ? _ Hall]; subst.
      rewrite Forall_forall in Hall. apply list_elem_of_In in He.
      specialize (Hall _ He). unfold desc in Hall. lra. }
    apply Qle_bool_iff in Hx. simpl. by rewrite Hx.
Qed.

Lemma strengths_weaknesses_bounds_witness :
  let scores := calculate_factor_scores area_a "student" in
  (forall e1 e2, In e1 (strength_entries scores) -> In e2 (weakness_entries scores) ->
                 fst e1 <> fst e2) /\
  fst (identify_strengths_weaknesses scores "student") <> [].
Proof.
  cbv zeta.
  destruct (strengths_weaknesses_bounds (calculate_factor_scores area_a "student")
              "student") as (_ & _ & _ & _ & H5 & H6).
  split.
  - apply H5. apply NoDup_ListNoDup. apply (bool_decide_unpack _). by vm_compute.
  - apply H6. exists ("affordability", 80). split; [by left|by vm_compute].
Defined.

Lemma compare_without_worse (top_scores l : dict Q) (better : list string) :
  (forall fs, In fs l -> Dict.get_or (fst fs) 50 top_scores - 5 <= snd fs) ->
  exists better', fold_left (compare_step top_scores) l (better, []) = (better', []).
Proof.
  revert better. induction l as [|fs l IH]; intros better H; simpl; [by eexists|].
  destruct (Qltb _ (snd fs)); [apply IH; intros; apply H; by right|].
  assert (E : Qltb (snd fs) (Dict.get_or (fst fs) 50 top_scores - 5) = false).
  { apply Qltb_ge. apply H. by left. }
  rewrite E. apply IH. intros. apply H. by right.
Qed.

(** Rank 1 always gets the fixed statement.  A lower-ranked candidate none
    of whose factor scores is more than 5 below the top candidate's gets
    "Similar profile to top choice", also when some of its factors are
    better by more than 5. *)
Theorem trade_offs_without_worse (c top : candidate) (rest : list candidate)
    (persona : string) :
  (rank c = Some 1%nat ->
   forall all_top, generate_trade_offs c all_top persona = Some top_statement) /\
  (forall r, rank c = Some r -> r <> 1%nat ->
     (forall fs, In fs (factor_scores c) ->
        Dict.get_or (fst fs) 50 (factor_scores top) - 5 <= snd fs) ->
     generate_trade_offs c (top :: rest) persona = Some similar_statement).
Proof.
  unfold generate_trade_offs. split.
  - by intros ->.
  - intros r -> Hr Hfs.
    destruct (compare_without_worse (factor_scores top) (factor_scores c) [] Hfs)
      as [better' Hfold].
    destruct r as [|[|r]]; [|done|]; rewrite Hfold; by destruct better'.
Qed.

Lemma trade_offs_without_worse_witness :
  let top :=
    {| area_code := "A"; composite_score := 70; factor_scores := [("safety", 60)];
       factor_contributions := []; raw_data := []; rank := Some 1%nat |} in
  let c :=
    {| area_code := "B"; composite_score := 69; factor_scores := [("safety", 90)];
       factor_contributions := []; raw_data := []; rank := Some 2%nat |} in
  generate_trade_offs top [top; c] "student" = Some top_statement /\
  generate_trade_offs c [top; c] "student" = Some similar_statement.
Proof.
  cbv zeta. split.
  - match goal with
    | |- generate_trade_offs ?c _ _ = _ =>
        apply (proj1 (trade_offs_without_worse c c [] "student"))
    end. reflexivity.
  - eapply (proj2 (trade_offs_without_worse _ _ _ "student") 2%nat);
      [reflexivity|lia|].
    intros fs [<-|[]]. by vm_compute.
Defined.

(** In the output of [score_and_rank] every recommendation gets a
    trade-off text, and the fixed top-rank statement goes to the first
    recommendation and to no other. *)
Theorem trade_offs_of_recommendations (persona : string) (p : preferences)
    (data : dict area) (n : Z) (out : output) (i : nat) (c : candidate) :
  score_and_rank persona p data n = Ok out ->
  recommendations out !! i = Some c ->
  exists t, generate_trade_offs c (recommendations out) persona = Some t /\
            (t = top_statement <-> i = 0%nat).
Proof.
  intros Hout Hc.
  destruct (recommendation_lookup _ _ _ _ _ _ _ Hout Hc) as (c0 & _ & -> & _).
  unfold generate_trade_offs. simpl rank.
  destruct (recommendations out) as [|top rest]; [done|].
  destruct i as [|i]; simpl; [by eexists|].
  replace (i + 1)%nat with (S i) by lia.
  destruct (fold_left _ _ _) as [[|b bs] [|w ws]]; eexists; (split; [reflexivity|]);
    split; try lia; unfold top_statement, similar_statement; simpl; discriminate.
Qed.

Lemma trade_offs_of_recommendations_witness :
  exists out c t,
    score_and_rank "student" no_preferences two_areas 10%Z = Ok out /\
    recommendations out !! 1%nat = Some c /\
    generate_trade_offs c (recommendations out) "student" = Some t /\
    t <> top_statement.
Proof.
  eexists _, _. 
  destruct (trade_offs_of_recommendations "student" no_preferences two_areas 10%Z
              _ 1%nat _ ltac:(by vm_compute) eq_refl) as (t & Ht & Hiff).
  exists t. split; [reflexivity|]. split; [reflexivity|]. split; [exact Ht|].
  intros H. apply Hiff in H. lia.
Defined.

End AnnotationFacts.

(** ** The scorer and ranker of [tools/score_areas.py] *)

Module ToolsFacts.
Import ScoreAreas Notions MoreNotions Samples.

Lemma keys_set_present {V : Type} (k : string) (v w : V) (d : dict V) :
  Dict.get k d = Some w -> Dict.keys (Dict.set k v d) = Dict.keys d.
Proof.
  induction d as [|[k' v'] d IH]; simpl; [done|].
  destruct (String.eqb k k') eqn:E; simpl.
  - apply String.eqb_eq in E. by subst.
  - intros H. by rewrite IH.
Qed.

Lemma keys_apply_user_weights (weights uw : dict Q) :
  Dict.keys (apply_user_weights weights uw) = Dict.keys weights.
Proof.
  unfold apply_user_weights. revert weights.
  induction uw as [|[k r] uw IH]; intros weights; simpl; [done|].
  destruct (Dict.get k weights) as [w|] eqn:E; rewrite IH; [|done].
  by eapply keys_set_present.
Qed.

Lemma base_weights_tools (persona : string) :
  let base := Dict.get_or persona student_weights PERSONA_WEIGHTS in
  Dict.keys base
  = ["affordability"; "commute"; "safety"; "amenities"; "schools"; "investment"] /\
  Forall (fun fw => 0 <= snd fw) base /\ Qsum (Dict.values base) == 1.
Proof.
  unfold Dict.get_or, PERSONA_WEIGHTS. simpl.
  repeat (match goal with
          | |- context [String.eqb ?a ?b] => destruct (String.eqb a b)
          end); simpl; (split; [reflexivity|]);
    (split; [repeat constructor; by vm_compute|by vm_compute]).
Qed.

Lemma keys_resolve_weights (persona : string) (uw : option (dict Q)) :
  Dict.keys (resolve_weights persona uw)
  = ["affordability"; "commute"; "safety"; "amenities"; "schools"; "investment"].
Proof.
  destruct (base_weights_tools persona) as (Hk & _). cbv zeta in Hk.
  unfold resolve_weights. destruct uw as [[|kr l]|]; try done.
  destruct (Qltb 0 _); rewrite ?ResolverFacts.keys_map_values;
    by rewrite keys_apply_user_weights.
Qed.

Lemma weighted_terms_ok (fs w : dict Q) :
  Forall (fun k => Dict.mem k fs = true) (Dict.keys w) ->
  weighted_terms fs w = Ok (map (fun fw => Dict.get_or (fst fw) 0 fs * snd fw) w).
Proof.
  induction w as [|[f x] w IH]; simpl; [done|]. intros H.
  apply Forall_cons in H as [Hf Hw]. unfold Dict.mem in Hf. unfold Dict.get_or.
  destruct (Dict.get f fs) as [s|]; [|done]. by rewrite IH.
Qed.

Lemma factor_scores_defined (data : dict (dict Q)) :
  Forall (fun k => Dict.mem k (extract_factor_scores data) = true)
    ["affordability"; "commute"; "safety"; "amenities"; "schools"; "investment"].
Proof. repeat constructor. Qed.

Lemma weighted_terms_resolved (data : dict (dict Q)) (persona : string)
    (uw : option (dict Q)) :
  weighted_terms (extract_factor_scores data) (resolve_weights persona uw)
  = Ok (map (fun fw => Dict.get_or (fst fw) 0 (extract_factor_scores data) * snd fw)
          (resolve_weights persona uw)).
Proof.
  apply weighted_terms_ok. rewrite keys_resolve_weights. apply factor_scores_defined.
Qed.

(** [calculate_composite_score] of [tools/score_areas.py] never raises:
    for every area record, persona name and user weights it returns a
    score over the same six factors, each of which has a score and a
    weight. *)
Theorem tools_composite_never_raises (data : dict (dict Q)) (persona : string)
    (uw : option (dict Q)) :
  exists sd, calculate_composite_score data persona uw = Ok sd /\
    Dict.keys (sd_weights_applied sd)
    = ["affordability"; "commute"; "safety"; "amenities"; "schools"; "investment"] /\
    Dict.keys (sd_factor_scores sd)
    = ["affordability"; "commute"; "safety"; "amenities"; "schools"; "investment"].
Proof.
  unfold calculate_composite_score. rewrite weighted_terms_resolved.
  eexists. split; [reflexivity|]. simpl. split; [apply keys_resolve_weights|done].
Qed.

Lemma values_set_present (k : string) (v old : Q) (d : dict Q) :
  Dict.get k d = Some old ->
  Qsum (Dict.values (Dict.set k v d)) == Qsum (Dict.values d) - old + v.
Proof.
  induction d as [|[k' v'] d IH]; simpl; [done|].
  destruct (String.eqb k k') eqn:E; simpl.
  - intros [= ->]. unfold Dict.values. simpl. rewrite !Qsum_cons. ring.
  - intros H. unfold Dict.values in *. simpl. rewrite !Qsum_cons, IH by done. ring.
Qed.

Lemma get_le_sum (k : string) (old : Q) (d : dict Q) :
  Forall (fun fw => 0 <= snd fw) d -> Dict.get k d = Some old ->
  0 <= old /\ old <= Qsum (Dict.values d).
Proof.
  induction 1 as [|[k' v'] d Hv Hd IH]; simpl; [done|].
  assert (Hs : 0 <= Qsum (Dict.values d)).
  { apply Qsum_nonneg. unfold Dict.values. by rewrite Forall_map. }
  unfold Dict.values in *. simpl in *. rewrite Qsum_cons.
  destruct (String.eqb k k').
  - intros [= ->]. split; lra.
  - intros H. destruct (IH H). split; lra.
Qed.

Lemma nonneg_set (k : string) (v : Q) (d : dict Q) :
  0 <= v -> Forall (fun fw => 0 <= snd fw) d ->
  Forall (fun fw => 0 <= snd fw) (Dict.set k v d).
Proof.
  intros Hv. induction 1 as [|[k' v'] d Hv' Hd IH]; simpl.
  - by repeat constructor.
  - destruct (String.eqb k k'); by constructor.
Qed.

Lemma apply_user_weights_positive (weights uw : dict Q) :
  Forall rating_in_range uw ->
  Forall (fun fw => 0 <= snd fw) weights -> 0 < Qsum (Dict.values weights) ->
  Forall (fun fw => 0 <= snd fw) (apply_user_weights weights uw) /\
  0 < Qsum (Dict.values (apply_user_weights weights uw)).
Proof.
  unfold apply_user_weights. intros Huw. revert weights.
  induction Huw as [|[k r] uw [Hr0 Hr10] _ IH]; intros weights Hnn Hpos; simpl;
    [done|].
  simpl in Hr0, Hr10.
  destruct (Dict.get k weights) as [w|] eqn:E; [|by apply IH].
  destruct (get_le_sum _ _ _ Hnn E) as [Hw0 HwS].
  assert (Hm : r / 10 == r * (1 # 10)) by field.
  apply IH.
  - apply nonneg_set; [|done]. rewrite Hm. nra.
  - rewrite values_set_present by done. rewrite Hm. nra.
Qed.

(** For every persona name and user ratings in [0,10], the weights applied
    by the tools scorer are non-negative and sum to 1. *)
Theorem tools_weights_sum_to_one (persona : string) (uw : option (dict Q)) :
  (forall l, uw = Some l -> Forall rating_in_range l) ->
  Forall (fun fw => 0 <= snd fw) (resolve_weights persona uw) /\
  Qsum (Dict.values (resolve_weights persona uw)) == 1.
Proof.
  intros Huw. destruct (base_weights_tools persona) as (_ & Hnn & Hsum).
  cbv zeta in Hnn, Hsum. unfold resolve_weights.
  destruct uw as [[|kr l]|]; try done. cbv zeta.
  set (base := Dict.get_or persona student_weights PERSONA_WEIGHTS) in *.
  destruct (apply_user_weights_positive base (kr :: l) (Huw _ eq_refl) Hnn)
    as [Hnn' Hpos]; [rewrite Hsum; reflexivity|].
  set (w := apply_user_weights base (kr :: l)) in *.
  assert (E : Qltb 0 (Qsum (Dict.values w)) = true) by (by apply Qltb_lt).
  rewrite E. split.
  - unfold Dict.map_values. rewrite Forall_map. eapply Forall_impl; [exact Hnn'|].
    simpl. intros fw Hfw. apply Qle_shift_div_l; [done|]. lra.
  - unfold Dict.values, Dict.map_values. rewrite map_map. simpl.
    rewrite (Qsum_map_ext _ (fun kv => snd kv * (1 / Qsum (Dict.values w)))).
    + rewrite <- (map_map snd (fun v => v * (1 / Qsum (Dict.values w)))), Qsum_scale.
      change (map snd w) with (Dict.values w).
      generalize dependent (Qsum (Dict.values w)). intros S HS _. field. lra.
    + intros x _. change (map snd w) with (Dict.values w).
      generalize dependent (Qsum (Dict.values w)). intros S HS _. field. lra.
Qed.

Lemma tools_weights_sum_to_one_witness :
  Qsum (Dict.values (resolve_weights "parent" (Some [("schools", 10); ("safety", 0)])))
  == 1.
Proof.
  apply (tools_weights_sum_to_one "parent" (Some [("schools", 10); ("safety", 0)])).
  intros l [= <-]. repeat constructor; by vm_compute.
Defined.

(** The composite of the tools scorer is a weighted average: when every
    factor score of the area lies between [lo] and [hi], so does the
    composite before rounding, for every persona name and ratings in
    [0,10]. *)
Theorem tools_composite_is_average (data : dict (dict Q)) (persona : string)
    (uw : option (dict Q)) (lo hi : Q) :
  (forall l, uw = Some l -> Forall rating_in_range l) ->
  Forall (fun fs => lo <= snd fs /\ snd fs <= hi) (extract_factor_scores data) ->
  exists sd u,
    calculate_composite_score data persona uw = Ok sd /\
    sd_composite_score sd = round1 u /\ lo <= u /\ u <= hi.
Proof.
  intros Huw Hfs. destruct (tools_weights_sum_to_one persona uw Huw) as [Hnn Hsum].
  unfold calculate_composite_score. rewrite weighted_terms_resolved.
  eexists _, _. split; [reflexivity|]. split; [reflexivity|].
  set (fs := extract_factor_scores data) in *.
  set (w := resolve_weights persona uw) in *.
  assert (Hin : forall fw, In fw w ->
            lo <= Dict.get_or (fst fw) 0 fs /\ Dict.get_or (fst fw) 0 fs <= hi).
  { intros fw Hfw. apply (in_map fst) in Hfw.
    change (map fst w) with (Dict.keys w) in Hfw. unfold w in Hfw.
    rewrite keys_resolve_weights in Hfw. unfold Dict.get_or.
    pose proof (factor_scores_defined data) as Hdef. rewrite Forall_forall in Hdef.
    apply list_elem_of_In in Hfw. specialize (Hdef _ Hfw). unfold Dict.mem in Hdef.
    fold fs in Hdef. destruct (Dict.get (fst fw) fs) as [s|] eqn:E; [|done].
    apply get_Some_In, list_elem_of_In in E. rewrite Forall_forall in Hfs.
    exact (Hfs _ E). }
  rewrite Forall_forall in Hnn.
  assert (Hscale : forall c, Qsum (map (fun fw : string * Q => c * snd fw) w) == c).
  { intros c. rewrite (Qsum_map_ext _ (fun fw => snd fw * c)) by (intros; ring).
    rewrite <- (map_map snd (fun v => v * c)), Qsum_scale.
    fold (Dict.values w). rewrite Hsum. ring. }
  split.
  - rewrite <- (Hscale lo) at 1. apply ScoringFacts.Qsum_le_pointwise.
    intros fw Hfw. destruct (Hin fw Hfw).
    pose proof (Hnn fw ltac:(by apply list_elem_of_In)). simpl in *. nra.
  - rewrite <- (Hscale hi) at 1. apply ScoringFacts.Qsum_le_pointwise.
    intros fw Hfw. destruct (Hin fw Hfw).
    pose proof (Hnn fw ltac:(by apply list_elem_of_In)). simpl in *. nra.
Qed.

Lemma tools_composite_is_average_witness :
  exists sd u,
    calculate_composite_score [] "retiree" (Some [("commute", 9)]) = Ok sd /\
    sd_composite_score sd = round1 u /\ 50 <= u /\ u <= 50.
Proof.
  apply (tools_composite_is_average [] "retiree" (Some [("commute", 9)]) 50 50).
  - intros l [= <-]. repeat constructor; by vm_compute.
  - repeat constructor; by vm_compute.
Defined.

Lemma build_recommendations_ok (areas : list enriched_area) (persona : string)
    (uw : option (dict Q)) :
  exists recs, build_recommendations areas persona uw = Ok recs /\
               length recs = length areas.
Proof.
  induction areas as [|x areas (recs & IH & Hlen)]; simpl; [by eexists|].
  destruct (tools_composite_never_raises (ea_data x) persona uw) as (sd & -> & _).
  rewrite IH. eexists. split; [reflexivity|]. simpl. by rewrite Hlen.
Qed.

Lemma map_enrichment_imap (f : nat -> recommendation -> recommendation)
    (l : list recommendation) :
  (forall i r, enrichment_data (f i r) = enrichment_data r) ->
  map enrichment_data (imap f l) = map enrichment_data l.
Proof.
  revert f. induction l as [|x l IH]; intros f Hf; simpl; [done|].
  rewrite Hf, IH; [done|]. intros i c. apply Hf.
Qed.

(** [rank_areas] always returns a list; its entries carry the ranks
    1, 2, ... in list order; and when [limit] is at least the number of
    areas, as in the pipeline's call with [limit=len(areas)], every input
    area is returned exactly once. *)
Theorem rank_areas_complete (areas : list enriched_area) (persona : string)
    (uw : option (dict Q)) (limit : Z) :
  exists out, rank_areas areas persona uw limit = Ok out /\
    (forall i r, out !! i = Some r -> rank r = (i + 1)%nat) /\
    ((Z.of_nat (length areas) <= limit)%Z ->
     length out = length areas /\
     map enrichment_data out ≡ₚ map ea_data areas).
Proof.
  destruct (build_recommendations_ok areas persona uw) as (recs & Hb & Hlen).
  unfold rank_areas. rewrite Hb. eexists. split; [reflexivity|]. split.
  - intros i r Hr. rewrite list_lookup_imap in Hr.
    destruct (slice_to limit _ !! i); [|done]. by injection Hr as <-.
  - intros Hl. unfold slice_to.
    assert (E : (0 <=? limit)%Z = true) by (apply Z.leb_le; lia). rewrite E.
    rewrite take_ge by (rewrite sort_desc_length; lia).
    rewrite length_imap, sort_desc_length. split; [done|].
    rewrite map_enrichment_imap by done.
    rewrite (sort_desc_perm composite_score).
    by rewrite (ToolsRankFacts.build_recommendations_data _ _ _ _ Hb).
Qed.

Lemma rank_areas_complete_witness :
  exists out, rank_areas two_enriched_areas "student" None 2%Z = Ok out /\
    length out = 2%nat /\
    map enrichment_data out ≡ₚ map ea_data two_enriched_areas.
Proof.
  destruct (rank_areas_complete two_enriched_areas "student" None 2%Z)
    as (out & H1 & _ & H3).
  exists out. split; [exact H1|]. apply H3. by vm_compute.
Defined.

End ToolsFacts.

(** ** Cache files: overwriting, invalidation, file names *)

Module CacheStoreFacts.
Import CacheManager CacheSweep Notions MoreNotions Samples CacheFacts.

(** A successful write replaces whatever an earlier write to the same
    category and key left behind, whether that write succeeded or failed:
    the cache directory is the one the last write alone would give. *)
Theorem write_overwrites (fs : store) (T1 T2 : Z) (io1 : io_outcome)
    (cache_type key : string) (p1 p2 : json) :
  snd (write_cache (snd (write_cache fs T1 io1 cache_type key p1)) T2 IoOk
         cache_type key p2)
  = snd (write_cache fs T2 IoOk cache_type key p2).
Proof.
  unfold write_cache. destruct io1; simpl; by rewrite ?insert_insert_eq.
Qed.

(** Invalidating an entry that was just written reports [True]; after
    that every read of it is a miss, for every category and [max_age],
    and a second invalidation reports [False] and changes nothing.  If the
    entry did not exist before the write, the directory is back to what
    it was. *)
Theorem invalidate_after_write (fs : store) (T now : Z) (cache_type key : string)
    (payload : json) (max_age_hours : option Z) :
  let fs1 := snd (write_cache fs T IoOk cache_type key payload) in
  let fs2 := snd (invalidate_cache fs1 true cache_type key) in
  fst (invalidate_cache fs1 true cache_type key) = true /\
  read_cache fs2 now cache_type key max_age_hours = Ok JNull /\
  invalidate_cache fs2 true cache_type key = (false, fs2) /\
  (fs !! get_cache_path cache_type key = None -> fs2 = fs).
Proof.
  unfold invalidate_cache, write_cache, read_cache. simpl.
  rewrite lookup_insert_eq. simpl. rewrite !lookup_delete_eq.
  repeat split. intros Hnone. by rewrite delete_insert_id.
Qed.

Lemma invalidate_after_write_witness :
  snd (invalidate_cache
         (snd (write_cache ∅ 0 IoOk "video_url" "E1" sample_payload)) true
         "video_url" "E1") = ∅.
Proof.
  apply (invalidate_after_write ∅ 0 0 "video_url" "E1" sample_payload None).
  apply lookup_empty.
Defined.

(** Writing or invalidating one cache file leaves every read that goes
    to another file unchanged. *)
Theorem other_files_untouched (fs : store) (T now : Z) (io : io_outcome)
    (unlink_ok : bool) (cache_type key cache_type' key' : string)
    (payload : json) (max_age_hours : option Z) :
  get_cache_path cache_type key <> get_cache_path cache_type' key' ->
  read_cache (snd (write_cache fs T io cache_type key payload)) now
    cache_type' key' max_age_hours
  = read_cache fs now cache_type' key' max_age_hours /\
  read_cache (snd (invalidate_cache fs unlink_ok cache_type key)) now
    cache_type' key' max_age_hours
  = read_cache fs now cache_type' key' max_age_hours.
Proof.
  intros Hne. unfold read_cache, write_cache, invalidate_cache. split.
  - destruct io; simpl; by rewrite ?lookup_insert_ne.
  - destruct (fs !! get_cache_path cache_type key); [|done].
    destruct unlink_ok; simpl; by rewrite ?lookup_delete_ne.
Qed.

Lemma other_files_untouched_witness :
  read_cache (snd (write_cache ∅ 0 IoOk "crime" "E1" sample_payload)) 0
    "schools" "E1" None
  = read_cache ∅ 0 "schools" "E1" None.
Proof.
  apply (other_files_untouched ∅ 0 0 IoOk true "crime" "E1" "schools" "E1"
           sample_payload None).
  by vm_compute.
Defined.

Lemma string_length_app (a b : string) :
  String.length (a +:+ b) = (String.length a + String.length b)%nat.
Proof. induction a as [|c a IH]; simpl; [done|]. by rewrite IH. Qed.

Lemma string_app_inv_tail (a b t : string) : a +:+ t = b +:+ t -> a = b.
Proof.
  revert b. induction a as [|c a IH]; intros [|c' b] H; simpl in H.
  - done.
  - apply (f_equal String.length) in H.
    rewrite ?string_length_app in H. simpl in H. rewrite ?string_length_app in H. lia.
  - apply (f_equal String.length) in H.
    rewrite ?string_length_app in H. simpl in H. rewrite ?string_length_app in H. lia.
  - injection H as -> H. by rewrite (IH b H).
Qed.

Lemma get_cache_path_safe_key (cache_type key : string) :
  get_cache_path cache_type key = cache_type +:+ "_" +:+ safe_key key +:+ ".json".
Proof. reflexivity. Qed.

Lemma safe_key_cons (c : Ascii.ascii) (s : string) :
  safe_key (String c s) = String (match safe_key (String c "") with
                                  | String c' _ => c' | EmptyString => c end)
                                 (safe_key s).
Proof. reflexivity. Qed.

Lemma safe_key_idempotent (key : string) : safe_key (safe_key key) = safe_key key.
Proof.
  induction key as [|c s IH]; [done|].
  rewrite (safe_key_cons c s). rewrite safe_key_cons, IH. f_equal.
  destruct c as [[] [] [] [] [] [] [] []]; reflexivity.
Qed.

(** Within one category two keys name the same cache file exactly when
    they agree after every slash, backslash and space is replaced by an
    underscore. *)
Theorem cache_path_collision_iff (cache_type key key' : string) :
  get_cache_path cache_type key = get_cache_path cache_type key' <->
  safe_key key = safe_key key'.
Proof.
  rewrite !get_cache_path_safe_key. split.
  - intros H. apply String.app_inj in H. apply String.app_inj in H.
    by apply string_app_inv_tail in H.
  - by intros ->.
Qed.

(** A key and its sanitised form are one cache entry: what is written
    under a key is read back under the key with slashes, backslashes and
    spaces replaced by underscores, as long as it is fresh. *)
Theorem sanitised_key_is_alias (fs : store) (written now : Z)
    (cache_type key : string) (payload : json) (max_age_hours : option Z) (h : Z) :
  applicable_ttl cache_type max_age_hours = Hours h ->
  (0 <= h <= 23999999999)%Z ->
  (written <= now <= written + h * us_per_hour)%Z ->
  read_cache (snd (write_cache fs written IoOk cache_type key payload)) now
    cache_type (safe_key key) max_age_hours = Ok payload.
Proof.
  intros Httl Hh Hnow.
  assert (Hpath : get_cache_path cache_type (safe_key key)
                  = get_cache_path cache_type key).
  { apply cache_path_collision_iff, safe_key_idempotent. }
  pose proof (write_then_read_finite fs written now cache_type key payload
                max_age_hours h Httl Hh Hnow) as Hread.
  unfold read_cache in *. by rewrite Hpath.
Qed.

Lemma sanitised_key_is_alias_witness :
  read_cache (snd (write_cache ∅ 0 IoOk "scansan_property" "E1 6AN" sample_payload))
    0 "scansan_property" "E1_6AN" None = Ok sample_payload.
Proof.
  apply (sanitised_key_is_alias ∅ 0 0 "scansan_property" "E1 6AN" sample_payload
           None 24); [reflexivity|lia|unfold us_per_hour; lia].
Defined.

End CacheStoreFacts.
